(** * Delivery-order pipeline of the storefront: a shallow embedding

    The development follows the TypeScript sources

      - [app/api/lalamove/[action]/route.ts]  (signer, upstream client,
        quote handler, order handler),
      - [app/api/orders/[id]/route.ts]        (single-order status update and
        the order-confirmation trigger),
      - [app/api/orders/bulk/route.ts]        (bulk status update),
      - [src/components/OrderManager.tsx]     (the selection sent to the bulk
        route),
      - [test-lalamove-scenarios.cjs]         (the request of the scenario
        script),

    and states the properties of the design document against them.

    Conventions.  A JavaScript string is a [string]; one [ascii] stands for
    one code unit (code units above 255 are outside the model).  A
    JavaScript Number is an IEEE binary64 value, i.e. a primitive [float].
    The time value of a [Date] is an integral number of milliseconds, kept
    as a [Z]; an invalid date is [None].  Console output is not modelled. *)

From Stdlib Require Import ZArith QArith Qabs Qround String Ascii List Bool Lia.
From Stdlib Require Import DecimalString.
From Stdlib Require Import Floats.
From stdpp Require Import base option gmap strings list.

Local Open Scope string_scope.
Local Open Scope Z_scope.

(* ===================================================================== *)
(** * Strings as the sources use them *)
(* ===================================================================== *)

Module Str.

(** [!s] on a string: only the empty string is falsy. *)
Definition is_empty (s : string) : bool :=
  match s with
  | EmptyString => true
  | String _ _ => false
  end.

(** [s.startsWith(p)]. *)
Fixpoint startsWith (s p : string) {struct p} : bool :=
  match p with
  | EmptyString => true
  | String b p' =>
      match s with
      | EmptyString => false
      | String a s' => Ascii.eqb a b && startsWith s' p'
      end
  end.

(** [s.slice(1)]. *)
Definition slice1 (s : string) : string :=
  match s with
  | EmptyString => EmptyString
  | String _ r => r
  end.

(** The class [\d] of a regular expression without the [u] flag: the ten
    ASCII digits. *)
Definition is_digit (c : ascii) : bool :=
  let n := N_of_ascii c in ((48 <=? n) && (n <=? 57))%N.

(** [s.replace(/\D/g, '')]: every code unit that is not a digit is
    dropped. *)
Fixpoint strip_non_digits (s : string) : string :=
  match s with
  | EmptyString => EmptyString
  | String c r =>
      if is_digit c then String c (strip_non_digits r)
      else strip_non_digits r
  end.

(** White space and line terminators of ECMAScript that fit in one 8-bit
    code unit: TAB, LF, VT, FF, CR, SP and NBSP. *)
Definition is_space (c : ascii) : bool :=
  let n := N_of_ascii c in
  ((9 <=? n) && (n <=? 13) || (n =? 32) || (n =? 160))%N.

Fixpoint trimStart (s : string) : string :=
  match s with
  | EmptyString => EmptyString
  | String c r => if is_space c then trimStart r else s
  end.

Fixpoint trimEnd (s : string) : string :=
  match s with
  | EmptyString => EmptyString
  | String c r =>
      let r' := trimEnd r in
      if is_space c && is_empty r' then EmptyString else String c r'
  end.

(** [s.trim()]. *)
Definition trim (s : string) : string := trimEnd (trimStart s).

Fixpoint all_digits (s : string) : bool :=
  match s with
  | EmptyString => true
  | String c r => is_digit c && all_digits r
  end.

End Str.

(* ===================================================================== *)
(** * Phone normalisation (both route handlers) *)
(* ===================================================================== *)

Module Phone.
Import Str.

(** The branches shared by every copy of the function, once the digits
    are known to be non-empty:
<<
  if (digits.startsWith('63')) return `+${digits}`;
  else if (digits.startsWith('0')) return `+63${digits.slice(1)}`;
  else if (digits.startsWith('9')) return `+63${digits}`;
  else return `+63${digits}`;
>> *)
Definition to_e164 (digits : string) : string :=
  if startsWith digits "63" then "+" +:+ digits
  else if startsWith digits "0" then "+63" +:+ slice1 digits
  else if startsWith digits "9" then "+63" +:+ digits
  else "+63" +:+ digits.

(** [normalizePhone] of [app/api/lalamove/[action]/route.ts], lines
    230-243 (the copy inside [createLalamoveOrder] of the orders route is
    the same text). *)
Definition normalizePhone (phone : string) : string :=
  if is_empty phone then phone
  else
    let digits := strip_non_digits phone in
    if is_empty digits then phone
    else to_e164 digits.

(** [normalizePhoneNumber] of [app/api/orders/[id]/route.ts], lines 13-35.
    The argument is [string | undefined], and so is the result:
    [undefined] is [None]. *)
Definition normalizePhoneNumber (phone : option string) : option string :=
  match phone with
  | None => None
  | Some p =>
      if is_empty p then None
      else
        let trimmed := trim p in
        if is_empty trimmed then None
        else
          let digits := strip_non_digits trimmed in
          if is_empty digits then None
          else Some (to_e164 digits)
  end.

End Phone.

(* ===================================================================== *)
(** * JavaScript values and the run-time functions the handlers call *)
(* ===================================================================== *)

Module JS.
Import Str.

(** What a variable of the handlers can hold: the results of
    [JSON.parse], [undefined], and built-in objects reached through a
    prototype ([VNative], named after the built-in). *)
#[warnings="-register-all"]
Inductive value : Type :=
| VUndef
| VNull
| VBool (b : bool)
| VNum (x : float)
| VStr (s : string)
| VArr (items : list value)
| VObj (fields : list (string * value))
| VNative (name : string).

(** Truthiness ([!v], [if (v)], [a || b]). *)
Definition truthy (v : value) : bool :=
  match v with
  | VUndef | VNull => false
  | VBool b => b
  | VNum x => negb (PrimFloat.is_nan x || PrimFloat.is_zero x)
  | VStr s => negb (is_empty s)
  | VArr _ | VObj _ | VNative _ => true
  end.

(** [a || b]. *)
Definition or_else (a b : value) : value := if truthy a then a else b.
Infix "|||" := or_else (at level 50, left associativity).

Fixpoint lookup_field (k : string) (fs : list (string * value)) : option value :=
  match fs with
  | [] => None
  | (k', v) :: r => if String.eqb k k' then Some v else lookup_field k r
  end.


(** [v?.k], for the property names the handlers read ([data], [stops],
    [stopId], [id], [expiresAt], [scheduleAt], the fields of the request
    body, ...).  None of them is defined on a prototype, so the read
    finds an own property of an object or [undefined]. *)
Definition prop (v : value) (k : string) : value :=
  match v with
  | VObj fs => match lookup_field k fs with Some x => x | None => VUndef end
  | _ => VUndef
  end.

(** [v[i]] for a value that is not [null] or [undefined]: an element of
    an array, the property named by the decimal index of an object, a
    one-character string of a string. *)
Definition index (v : value) (i : nat) : value :=
  match v with
  | VArr l => nth i l VUndef
  | VObj _ => prop v (NilZero.string_of_uint (Nat.to_uint i))
  | VStr s => match String.get i s with
              | Some c => VStr (String c EmptyString)
              | None => VUndef
              end
  | _ => VUndef
  end.

Fixpoint join (sep : string) (l : list string) : string :=
  match l with
  | [] => EmptyString
  | [x] => x
  | x :: r => x +:+ sep +:+ join sep r
  end.

(** The decimal form of an integer, as [Number.prototype.toString] prints
    an integral time value. *)
Definition decimal (z : Z) : string := NilZero.string_of_int (Z.to_int z).

(** Thrown values. *)
Inductive exn : Type :=
| MissingEnv (key : string)   (* [getEnv]: Missing env var *)
| NetworkError                (* [fetch] rejected *)
| SyntaxError                 (* [JSON.parse] of text that is not JSON *)
| TypeError.                  (* a property read on [null] *)

Inductive outcome (A : Type) : Type :=
| Ok (a : A)
| Throw (e : exn).
Arguments Ok {A} a.
Arguments Throw {A} e.

(** [v.k] without [?]: reading a property of [null] or [undefined]
    throws. *)
Definition member (v : value) (k : string) : outcome value :=
  match v with
  | VUndef | VNull => Throw TypeError
  | _ => Ok (prop v k)
  end.

(** Built-in functions of the platform that the handlers call and this
    development does not define. *)
Class Runtime : Type := {
  (** [x.toString()] for a Number. *)
  Number_toString : float -> string;
  (** [Number(s)] for a string. *)
  StringToNumber : string -> float;
  (** [x.toFixed(0)], for the quotient [x] a double approximates. *)
  Number_toFixed0 : Q -> string;
  (** [JSON.parse]; [None] when it throws. *)
  JSON_parse : string -> option value;
  (** [JSON.stringify] of an object. *)
  JSON_stringify : value -> string;
  (** [new Date(v).getTime()]; [None] for an invalid date (NaN). *)
  Date_time : value -> option Z;
  (** HMAC-SHA256 of a message under a key, in hexadecimal. *)
  hmac_sha256_hex : string -> string -> string;
  (** The target of the request that [fetch(url)] sends, i.e.
      [u.pathname + u.search] for [u = new URL(url)].  The platform parses
      the string it is handed (the fragment is dropped, dot segments are
      resolved, some characters are percent-encoded), so the target need
      not be the rest of [url] after the host. *)
  URL_target : string -> string
}.

Section Conversions.
Context `{Runtime}.

(** [String(v)] and [`${v}`]. *)
Fixpoint to_string (v : value) : string :=
  match v with
  | VUndef => "undefined"
  | VNull => "null"
  | VBool true => "true"
  | VBool false => "false"
  | VNum x => Number_toString x
  | VStr s => s
  | VArr l =>
      join "," (map (fun e => match e with
                              | VUndef | VNull => EmptyString
                              | _ => to_string e
                              end) l)
  | VObj _ => "[object Object]"
  | VNative name => "function " +:+ name +:+ "() { [native code] }"
  end.

(** [Number(v)]. *)
Definition to_number (v : value) : float :=
  match v with
  | VUndef => nan
  | VNull => zero
  | VBool b => if b then one else zero
  | VNum x => x
  | VStr s => StringToNumber s
  | VArr _ | VObj _ | VNative _ => StringToNumber (to_string v)
  end.
End Conversions.

(** ** The world a handler runs in *)

(** One call of [fetch], as the handler makes it.  [req_url] is the string
    handed to [fetch], not yet parsed by the platform; what is requested
    on the wire is [wire_target] below.  [req_payload] is the object the
    body was serialised from; it is kept beside the text so that the
    fields of an outgoing payload can be read back. *)
Record Request : Type := {
  req_method : string;
  req_url : string;
  req_headers : list (string * string);
  req_body : option string;
  req_payload : value
}.

Record HttpResponse : Type := {
  res_status : Z;
  res_text : string
}.

(** [response.ok]: the status is in the range 200-299. *)
Definition res_ok (r : HttpResponse) : bool :=
  (200 <=? res_status r) && (res_status r <=? 299).

Inductive fetch_result : Type :=
| Rejected                       (* [fetch] throws: no response *)
| Responded (r : HttpResponse).

(** What a handler does not control: the process environment, the
    successive readings of the clock, and the upstream aggregator, which
    answers a request in view of the requests made before it. *)
Record Env : Type := {
  process_env : string -> option string;
  clock : nat -> Z;
  upstream : list Request -> Request -> fetch_result
}.

(** The effects of a handler: the requests sent so far, oldest first,
    and the number of clock readings taken. *)
Record World : Type := {
  trace : list Request;
  ticks : nat
}.

Definition M (A : Type) : Type := World -> outcome A * World.

Definition ret {A} (a : A) : M A := fun w => (Ok a, w).

Definition throw {A} (e : exn) : M A := fun w => (Throw e, w).

Definition bind {A B} (m : M A) (k : A -> M B) : M B :=
  fun w =>
    match m w with
    | (Ok a, w') => k a w'
    | (Throw e, w') => (Throw e, w')
    end.

(** [try { m } catch (error) { h }]. *)
Definition try_catch {A} (m : M A) (h : exn -> M A) : M A :=
  fun w =>
    match m w with
    | (Ok a, w') => (Ok a, w')
    | (Throw e, w') => h e w'
    end.

Definition lift {A} (o : outcome A) : M A := fun w => (o, w).

Section Effects.
Context (env : Env).

(** [new Date().getTime()]. *)
Definition new_Date : M Z :=
  fun w => (Ok (clock env (ticks w)),
            {| trace := trace w; ticks := S (ticks w) |}).

(** [await fetch(url, init)]: the call is recorded with the URL string as
    given, then answered or rejected. *)
Definition fetch (r : Request) : M HttpResponse :=
  fun w =>
    let w' := {| trace := trace w ++ [r]; ticks := ticks w |} in
    match upstream env (trace w) r with
    | Rejected => (Throw NetworkError, w')
    | Responded res => (Ok res, w')
    end.
End Effects.

Section Wire.
Context `{Runtime}.

(** The path and query a call of [fetch] requests on the wire. *)
Definition wire_target (r : Request) : string := URL_target (req_url r).

End Wire.

End JS.

(* ===================================================================== *)
(** * The delivery route: [app/api/lalamove/[action]/route.ts] *)
(* ===================================================================== *)

Module Lalamove.
Import Str JS.

Notation "'let!' x ':=' m 'in' k" := (bind m (fun x => k))
  (at level 10, x name, m at level 100, k at level 200).

Record DeliveryStoreConfig : Type := {
  market : string;
  serviceType : string;
  sandbox : bool;
  storeName : string;
  storePhone : string;
  storeAddress : string;
  storeLatitude : float;
  storeLongitude : float
}.

Definition API_BASE_URL : string := "https://rest.lalamove.com/v3".
Definition API_SANDBOX_URL : string := "https://rest.sandbox.lalamove.com/v3".

(** The two hosts, without the version segment. *)
Definition API_HOST (sandbox : bool) : string :=
  if sandbox then "https://rest.sandbox.lalamove.com"
  else "https://rest.lalamove.com".

Definition CRLF : string := String "013" (String "010" EmptyString).

(** What [NextResponse.json(body, { status, headers })] carries. *)
Record Response : Type := {
  resp_status : Z;
  resp_body : value
}.

Definition respond (body : value) (status : Z) : Response :=
  {| resp_status := status; resp_body := body |}.

(** [{ error: msg }]. *)
Definition error_body (msg : string) : value := VObj [("error", VStr msg)].

(** ** Market to language *)

(** The object literal [map] of [getLanguageForMarket]. *)
Definition language_map : list (string * value) :=
  [ ("HK", VStr "en_HK"); ("SG", VStr "en_SG"); ("TH", VStr "th_TH");
    ("PH", VStr "en_PH"); ("TW", VStr "zh_TW"); ("MY", VStr "ms_MY");
    ("VN", VStr "vi_VN") ].

(** The properties every object literal inherits from [Object.prototype]:
    eleven functions, and the accessor [__proto__], which yields the
    prototype itself, an object without enumerable properties. *)
Definition Object_prototype : list (string * value) :=
  [ ("constructor", VNative "Object");
    ("hasOwnProperty", VNative "hasOwnProperty");
    ("isPrototypeOf", VNative "isPrototypeOf");
    ("propertyIsEnumerable", VNative "propertyIsEnumerable");
    ("toLocaleString", VNative "toLocaleString");
    ("toString", VNative "toString");
    ("valueOf", VNative "valueOf");
    ("__defineGetter__", VNative "__defineGetter__");
    ("__defineSetter__", VNative "__defineSetter__");
    ("__lookupGetter__", VNative "__lookupGetter__");
    ("__lookupSetter__", VNative "__lookupSetter__");
    ("__proto__", VObj []) ].

(** [o[k]] for an object literal [o] and an arbitrary key [k]: an own
    property, else a property of the prototype, else [undefined]. *)
Definition literal_get (own : list (string * value)) (k : string) : value :=
  match lookup_field k own with
  | Some v => v
  | None =>
      match lookup_field k Object_prototype with
      | Some v => v
      | None => VUndef
      end
  end.

(** [getLanguageForMarket]: [return map[market] || 'en_US']. *)
Definition getLanguageForMarket (market : string) : value :=
  literal_get language_map market ||| VStr "en_US".

Section Handlers.
Context `{Runtime} (env : Env).

(** [getEnv]. *)
Definition getEnv (key : string) : M string :=
  match process_env env key with
  | Some v => if is_empty v then throw (MissingEnv key) else ret v
  | None => throw (MissingEnv key)
  end.

(** The text handed to HMAC by [signPayload]:
    [`${timestamp}\r\n${method}\r\n${path}\r\n\r\n${body}`]. *)
Definition sign_message (timestamp method path body : string) : string :=
  timestamp +:+ CRLF +:+ method +:+ CRLF +:+ path +:+ CRLF +:+ CRLF +:+ body.

(** [signPayload]: the pair [(timestamp, signature)]. *)
Definition signPayload (method path body secret : string) : M (string * string) :=
  let! t := new_Date env in
  let timestamp := decimal t in
  let message := sign_message timestamp method path body in
  ret (timestamp, hmac_sha256_hex secret message).

(** [createStops]. *)
Definition createStops (config : DeliveryStoreConfig) (deliveryAddress : string)
           (lat lng : float) : value :=
  VArr
    [ VObj [ ("coordinates",
              VObj [ ("lat", VStr (Number_toString (storeLatitude config)));
                     ("lng", VStr (Number_toString (storeLongitude config))) ]);
             ("address", VStr (storeAddress config)) ];
      VObj [ ("coordinates",
              VObj [ ("lat", VStr (Number_toString lat));
                     ("lng", VStr (Number_toString lng)) ]);
             ("address", VStr deliveryAddress) ] ].

(** [buildUpstreamUrl]. *)
Definition buildUpstreamUrl (path : string) (sandbox : bool) : string :=
  let base := if sandbox then API_SANDBOX_URL else API_BASE_URL in
  base +:+ path.

(** The two shapes [proxyRequest] returns: [{ error, status }] and
    [{ data }]. *)
Inductive proxy_result : Type :=
| PError (error : string) (status : Z)
| PData (data : value).

(** [proxyRequest]. *)
Definition proxyRequest (path : string) (payload : value) (market : string)
           (sandbox : bool) (method : string) : M proxy_result :=
  let! secret := getEnv "LALAMOVE_API_SECRET" in
  let! apiKey := getEnv "LALAMOVE_API_KEY" in
  let bodyString :=
    if String.eqb method "GET" then EmptyString else JSON_stringify payload in
  let signaturePath := "/v3" +:+ path in
  let! ts := signPayload method signaturePath bodyString secret in
  let '(timestamp, signature) := ts in
  let upstreamUrl := buildUpstreamUrl path sandbox in
  let! upstreamResponse :=
    fetch env
      {| req_method := method;
         req_url := upstreamUrl;
         req_headers :=
           [ ("Content-Type", "application/json; charset=utf-8");
             ("Market", market);
             ("Authorization",
              "hmac " +:+ apiKey +:+ ":" +:+ timestamp +:+ ":" +:+ signature);
             ("Accept", "application/json") ];
         req_body :=
           if String.eqb method "GET" then None else Some bodyString;
         req_payload := payload |} in
  let responseBody := res_text upstreamResponse in
  if negb (res_ok upstreamResponse) then
    ret (PError (if is_empty responseBody then "Lalamove upstream error"
                 else responseBody)
                (res_status upstreamResponse))
  else
    match JSON_parse responseBody with
    | Some data => ret (PData data)
    | None => throw SyntaxError
    end.

(** [String(body.k || '')]. *)
Definition field_string (body : value) (k : string) : string :=
  to_string (prop body k ||| VStr "").

(** [buildConfig]. *)
Definition buildConfig (body : value) : option DeliveryStoreConfig :=
  if negb (truthy body) then None
  else
    let market := field_string body "market" in
    let serviceType := field_string body "serviceType" in
    let storeName := field_string body "storeName" in
    let storePhone := field_string body "storePhone" in
    let storeAddress := field_string body "storeAddress" in
    let storeLatitude := to_number (prop body "storeLatitude") in
    let storeLongitude := to_number (prop body "storeLongitude") in
    let sandbox := truthy (prop body "sandbox") in
    if is_empty market || is_empty serviceType || is_empty storeName
       || is_empty storePhone || is_empty storeAddress
       || PrimFloat.is_nan storeLatitude || PrimFloat.is_nan storeLongitude
    then None
    else Some {| market := market; serviceType := serviceType;
                 sandbox := sandbox; storeName := storeName;
                 storePhone := storePhone; storeAddress := storeAddress;
                 storeLatitude := storeLatitude;
                 storeLongitude := storeLongitude |}.

(** [result.status || 500]. *)
Definition status_or_500 (status : Z) : Z :=
  if status =? 0 then 500 else status.

(** The payload of a quotation request. *)
Definition quotePayload (config : DeliveryStoreConfig) (deliveryAddress : string)
           (deliveryLat deliveryLng : float) : value :=
  let language := getLanguageForMarket (market config) in
  VObj [ ("data",
          VObj [ ("serviceType", VStr (serviceType config));
                 ("language", language);
                 ("stops", createStops config deliveryAddress deliveryLat deliveryLng);
                 ("item",
                  VObj [ ("quantity", VStr "1");
                         ("weight", VStr "LESS_THAN_3_KG");
                         ("categories", VArr [VStr "FOOD_DELIVERY"]);
                         ("handlingInstructions", VArr [VStr "KEEP_UPRIGHT"]) ]) ]) ].

(** [handleQuote]. *)
Definition handleQuote (body : value) (config : DeliveryStoreConfig) : M Response :=
  let deliveryAddress := field_string body "deliveryAddress" in
  let deliveryLat := to_number (prop body "deliveryLat") in
  let deliveryLng := to_number (prop body "deliveryLng") in
  if is_empty deliveryAddress || PrimFloat.is_nan deliveryLat
     || PrimFloat.is_nan deliveryLng
  then ret (respond (error_body "Missing delivery fields") 400)
  else
    let! result := proxyRequest "/quotations"
                (quotePayload config deliveryAddress deliveryLat deliveryLng)
                (market config) (sandbox config) "POST" in
    match result with
    | PError e st => ret (respond (error_body e) (status_or_500 st))
    | PData d =>
        let! dd := lift (member d "data") in
        ret (respond
               (VObj [ ("quotationId", prop dd "quotationId");
                       ("price", prop (prop dd "priceBreakdown") "total");
                       ("currency", prop (prop dd "priceBreakdown") "currency");
                       ("expiresAt", prop dd "expiresAt") ])
               200)
    end.

(** ** The order handler *)

(** Lines 264-281: the expiry test; [Some r] is the early [return r]. *)
Definition check_expiry (now : Z) (quotation : value) : option Response :=
  let expiresAt := prop quotation "expiresAt" in
  if truthy expiresAt then
    match Date_time expiresAt with
    | Some expirationTime =>
        if expirationTime <? now then
          Some (respond
                  (error_body ("Quotation has expired. Expired at "
                               +:+ to_string expiresAt
                               +:+ ". Please request a new quotation."))
                  400)
        else None
    | None => None   (* [now > NaN] is false *)
    end
  else None.

(** Lines 283-337: the schedule test; [inl r] is the early [return r],
    [inr b] the value left in [shouldUseScheduleAt].  The time values
    are integral, so [timeDiff / (1000 * 60)] is a rational; a double
    rounds it monotonically and represents 10 exactly, so the
    comparison with 10 is that of the rationals. *)
Definition check_schedule (now : Z) (quotation : value) : Response + bool :=
  let scheduleAt := prop quotation "scheduleAt" in
  if truthy scheduleAt then
    match Date_time scheduleAt with
    | Some scheduleTime =>
        let timeDiff := scheduleTime - now in
        let minutesDiff := (inject_Z timeDiff / inject_Z (1000 * 60))%Q in
        if scheduleTime <? now then
          let minutesPast := Qabs minutesDiff in
          if Qle_bool minutesPast (inject_Z 10) then inr false
          else
            inl (respond
                   (error_body ("Quotation schedule time ("
                                +:+ to_string scheduleAt
                                +:+ ") is too far in the past ("
                                +:+ Number_toFixed0 minutesPast
                                +:+ " minutes). Please request a new quotation for immediate delivery."))
                   400)
        else inr true
    | None => inr true   (* [NaN < now] is false: the branch of the future *)
    end
  else inr false.

(** Lines 339-343: the two stop identifiers read from the quotation. *)
Definition extract_stops (quotation : value) : value * value :=
  let stops :=
    prop quotation "stops" ||| prop (prop quotation "data") "stops" ||| VArr [] in
  (prop (index stops 0) "stopId" ||| prop (index stops 0) "id" ||| VStr "",
   prop (index stops 1) "stopId" ||| prop (index stops 1) "id" ||| VStr "").

(** What the [try] block of lines 251-359 leaves behind: an early
    response, or the values of [senderStopId], [recipientStopId],
    [quotationScheduleAt] and [shouldUseScheduleAt]. *)
Definition resolved : Type := Response + (value * value * value * bool).

(** Lines 259-354, after the quotation has been received and the clock
    read: the three tests in the order of the source. *)
Definition inspect_quotation (now : Z) (d : value) : resolved :=
  let quotation := prop d "data" ||| d in
  match check_expiry now quotation with
  | Some r => inl r
  | None =>
      match check_schedule now quotation with
      | inl r => inl r
      | inr shouldUseScheduleAt =>
          let '(senderStopId, recipientStopId) := extract_stops quotation in
          if negb (truthy senderStopId) || negb (truthy recipientStopId)
          then
            inl (respond
                   (error_body "Failed to extract stop IDs from quotation. Please check quotation response structure.")
                   500)
          else
            inr (senderStopId, recipientStopId,
                 prop quotation "scheduleAt", shouldUseScheduleAt)
      end
  end.

(** The request that fetches a quotation (line 254). *)
Definition fetch_quotation (quotationId : string) (config : DeliveryStoreConfig)
  : M proxy_result :=
  proxyRequest ("/quotations/" +:+ quotationId) (VObj [])
               (market config) (sandbox config) "GET".

(** The [try] block of lines 252-358 with its [catch]. *)
Definition resolve_stops (quotationId : string) (config : DeliveryStoreConfig)
  : M resolved :=
  try_catch
    (let! quoteResult := fetch_quotation quotationId config in
     match quoteResult with
     | PError e st =>
         ret (inl (respond (error_body ("Failed to fetch quotation: " +:+ e))
                           (status_or_500 st)))
     | PData d =>
         let! now := new_Date env in
         ret (inspect_quotation now d)
     end)
    (fun _ =>
       ret (inl (respond (error_body "Failed to fetch quotation for stop IDs") 500))).

(** Lines 361-391: [orderPayload], with [scheduleAt] added last when
    [shouldUseScheduleAt && quotationScheduleAt]. *)
Definition orderPayload (body : value) (config : DeliveryStoreConfig)
           (quotationId recipientName recipientPhone : string)
           (senderStopId recipientStopId quotationScheduleAt : value)
           (shouldUseScheduleAt : bool) : value :=
  let normalizedStorePhone := Phone.normalizePhone (storePhone config) in
  let normalizedRecipientPhone := Phone.normalizePhone recipientPhone in
  VObj
    [ ("data",
       VObj
         ([ ("quotationId", VStr quotationId);
            ("sender",
             VObj [ ("stopId", senderStopId);
                    ("name", VStr (storeName config));
                    ("phone", VStr normalizedStorePhone) ]);
            ("recipients",
             VArr [ VObj [ ("stopId", recipientStopId);
                           ("name", VStr recipientName);
                           ("phone", VStr normalizedRecipientPhone);
                           ("remarks", prop body "recipientRemarks" ||| VStr "") ] ]);
            ("isPODEnabled", VBool true);
            ("metadata", prop body "metadata" ||| VObj []) ]
          ++ (if shouldUseScheduleAt && truthy quotationScheduleAt
              then [ ("scheduleAt", quotationScheduleAt) ]
              else []))) ].

(** Lines 402-412: the order request and the response made of it. *)
Definition submit_order (payload : value) (config : DeliveryStoreConfig) : M Response :=
  let! result := proxyRequest "/orders" payload (market config) (sandbox config) "POST" in
  match result with
  | PError e st => ret (respond (error_body e) (status_or_500 st))
  | PData d =>
      let! dd := lift (member d "data") in
      ret (respond
             (VObj [ ("orderId", prop dd "orderId");
                     ("status", prop dd "status");
                     ("shareLink", prop dd "shareLink");
                     ("driverId", prop dd "driverId") ])
             200)
  end.

(** [handleOrder]. *)
Definition handleOrder (body : value) (config : DeliveryStoreConfig) : M Response :=
  let quotationId := field_string body "quotationId" in
  let recipientName := field_string body "recipientName" in
  let recipientPhone := field_string body "recipientPhone" in
  if is_empty quotationId || is_empty recipientName || is_empty recipientPhone
  then ret (respond (error_body "Missing order fields") 400)
  else
    let senderStopId := prop body "senderStopId" in
    let recipientStopId := prop body "recipientStopId" in
    let! r :=
      (if negb (truthy senderStopId) || negb (truthy recipientStopId)
       then resolve_stops quotationId config
       else ret (inr (senderStopId, recipientStopId, VUndef, false))) in
    match r with
    | inl response => ret response
    | inr (senderStopId, recipientStopId, quotationScheduleAt, shouldUseScheduleAt) =>
        submit_order
          (orderPayload body config quotationId recipientName recipientPhone
                        senderStopId recipientStopId quotationScheduleAt
                        shouldUseScheduleAt)
          config
    end.

(** [POST], for the action of the URL and the text of the request
    body. *)
Definition POST (action : string) (raw : string) : M Response :=
  if negb (String.eqb action "quote") && negb (String.eqb action "order")
  then ret (respond (error_body "Action not supported") 405)
  else
    match JSON_parse raw with
    | None => ret (respond (error_body "Invalid JSON payload") 400)
    | Some body =>
        match buildConfig body with
        | None => ret (respond (error_body "Invalid delivery store configuration") 400)
        | Some config =>
            if String.eqb action "quote" then handleQuote body config
            else handleOrder body config
        end
    end.
End Handlers.

(** ** Vocabulary of the statements *)

Section Observations.
Context `{Runtime} (env : Env).

(** The value [getEnv env key] returns, if it returns. *)
Definition env_var (key : string) : option string :=
  match process_env env key with
  | Some v => if is_empty v then None else Some v
  | None => None
  end.

(** The request [proxyRequest] sends when the clock reads [t]. *)
Definition upstream_request (path : string) (payload : value) (market : string)
           (sandbox : bool) (method secret apiKey : string) (t : Z) : Request :=
  let body :=
    if String.eqb method "GET" then EmptyString else JSON_stringify payload in
  {| req_method := method;
     req_url := buildUpstreamUrl path sandbox;
     req_headers :=
       [ ("Content-Type", "application/json; charset=utf-8");
         ("Market", market);
         ("Authorization",
          "hmac " +:+ apiKey +:+ ":" +:+ decimal t +:+ ":"
          +:+ hmac_sha256_hex secret
                (sign_message (decimal t) method ("/v3" +:+ path) body));
         ("Accept", "application/json") ];
     req_body := if String.eqb method "GET" then None else Some body;
     req_payload := payload |}.

(** What [proxyRequest] makes of the answer to its request. *)
Definition proxy_outcome (a : fetch_result) : outcome proxy_result :=
  match a with
  | Rejected => Throw NetworkError
  | Responded r =>
      if negb (res_ok r) then
        Ok (PError (if is_empty (res_text r) then "Lalamove upstream error"
                    else res_text r)
                   (res_status r))
      else
        match JSON_parse (res_text r) with
        | Some data => Ok (PData data)
        | None => Throw SyntaxError
        end
  end.

(** The world after one request and one clock reading. *)
Definition sent (w : World) (r : Request) : World :=
  {| trace := trace w ++ [r]; ticks := S (ticks w) |}.

(** The world after one more clock reading. *)
Definition tick (w : World) : World :=
  {| trace := trace w; ticks := S (ticks w) |}.

(** The three fields [handleOrder] requires. *)
Definition order_fields_present (body : value) : bool :=
  negb (is_empty (field_string body "quotationId")
        || is_empty (field_string body "recipientName")
        || is_empty (field_string body "recipientPhone")).

(** Both stop identifiers came with the request. *)
Definition stops_supplied (body : value) : bool :=
  truthy (prop body "senderStopId") && truthy (prop body "recipientStopId").

(** The payload [handleOrder] assembles from what the stop resolution
    left behind. *)
Definition payload_of (body : value) (config : DeliveryStoreConfig)
           (senderStopId recipientStopId quotationScheduleAt : value)
           (shouldUseScheduleAt : bool) : value :=
  orderPayload body config (field_string body "quotationId")
               (field_string body "recipientName")
               (field_string body "recipientPhone")
               senderStopId recipientStopId quotationScheduleAt
               shouldUseScheduleAt.



(** [headers[name]] of a request. *)
Fixpoint header (name : string) (hs : list (string * string)) : option string :=
  match hs with
  | [] => None
  | (k, v) :: r => if String.eqb name k then Some v else header name r
  end.


(** A request made by the upstream client, with the secrets of the
    environment. *)
Definition from_client (req : Request) : Prop :=
  exists path payload market sandbox method secret apiKey t,
    env_var "LALAMOVE_API_SECRET" = Some secret /\
    env_var "LALAMOVE_API_KEY" = Some apiKey /\
    req = upstream_request path payload market sandbox method secret apiKey t.

(** A computation that only adds requests satisfying [P] to the trace. *)
Definition sends_only {A : Type} (P : Request -> Prop) (m : M A) : Prop :=
  forall w, exists l, trace (snd (m w)) = (trace w ++ l)%list /\ Forall P l.

End Observations.

End Lalamove.

(* ===================================================================== *)
(** * The orders routes: [app/api/orders/[id]/route.ts] and
      [app/api/orders/bulk/route.ts] *)
(* ===================================================================== *)

Module Orders.
Import Str.

(** The columns of a row of [orders] that the two routes read or write.
    A nullable text column is an [option]. *)
Record Order : Type := {
  id : string;
  order_number : string;
  customer_name : string;
  contact_number : string;
  service_type : string;
  status : string;
  lalamove_quotation_id : option string;
  lalamove_order_id : option string;
  lalamove_status : option string;
  lalamove_tracking_url : option string
}.

(** The table [orders], by primary key. *)
Abbreviation Table := (gmap string Order).

(** Truthiness of a nullable text: neither [null] nor empty. *)
Definition present (x : option string) : bool :=
  match x with
  | Some s => negb (is_empty s)
  | None => false
  end.

Definition validStatuses : list string :=
  [ "pending"; "confirmed"; "preparing"; "ready"; "out_for_delivery";
    "completed"; "cancelled" ].

Definition valid_status (s : string) : bool :=
  existsb (String.eqb s) validStatuses.

(** The body of [PATCH /api/orders/[id]] as documented: each field is
    absent ([None]) or a string or [null]; [status] is absent or a
    string. *)
Record Patch : Type := {
  p_status : option string;
  p_lalamove_order_id : option (option string);
  p_lalamove_status : option (option string);
  p_lalamove_tracking_url : option (option string)
}.

(** [Object.keys(updateData).length === 0]. *)
Definition no_fields (b : Patch) : bool :=
  match p_status b, p_lalamove_order_id b, p_lalamove_status b,
        p_lalamove_tracking_url b with
  | None, None, None, None => true
  | _, _, _, _ => false
  end.

(** [.update(updateData)] on one row. *)
Definition apply_patch (b : Patch) (o : Order) : Order :=
  {| id := id o;
     order_number := order_number o;
     customer_name := customer_name o;
     contact_number := contact_number o;
     service_type := service_type o;
     status := match p_status b with Some s => s | None => status o end;
     lalamove_quotation_id := lalamove_quotation_id o;
     lalamove_order_id :=
       match p_lalamove_order_id b with Some v => v | None => lalamove_order_id o end;
     lalamove_status :=
       match p_lalamove_status b with Some v => v | None => lalamove_status o end;
     lalamove_tracking_url :=
       match p_lalamove_tracking_url b with
       | Some v => v
       | None => lalamove_tracking_url o
       end |}.

(** Lines 367-373:
<<
    status === 'confirmed' &&
    currentOrder?.status !== 'confirmed' &&
    currentOrder?.service_type === 'delivery' &&
    currentOrder?.lalamove_quotation_id &&
    !currentOrder?.lalamove_order_id
>> *)
Definition statusChangingToConfirmed (status : option string)
           (currentOrder : option Order) : bool :=
  match status, currentOrder with
  | Some s, Some o =>
      String.eqb s "confirmed"
      && negb (String.eqb (Orders.status o) "confirmed")
      && String.eqb (service_type o) "delivery"
      && present (lalamove_quotation_id o)
      && negb (present (lalamove_order_id o))
  | _, _ => false
  end.

(** The background job of lines 405-443, as it is left behind by the
    request: the row [data] it captured. *)
Record Task : Type := { task_id : string; task_row : Order }.

(** What a route hands back: the HTTP status, the updated row when there
    is one, the table after the request, and the background jobs started
    and not awaited. *)
Record Outcome : Type := {
  http_status : Z;
  returned : option Order;
  table : Table;
  started : list Task
}.

Definition refuse (code : Z) (db : Table) : Outcome :=
  {| http_status := code; returned := None; table := db; started := [] |}.

(** [PATCH /api/orders/[id]]. *)
Definition PATCH (order_id : string) (b : Patch) (db : Table) : Outcome :=
  if is_empty order_id then refuse 400 db
  else if match p_status b with Some s => negb (valid_status s) | None => false end
  then refuse 400 db
  else if no_fields b then refuse 400 db
  else
    let currentOrder := db !! order_id in
    let trigger := statusChangingToConfirmed (p_status b) currentOrder in
    match db !! order_id with
    | None => refuse 500 db   (* [.single()] finds no row: an error *)
    | Some o =>
        let data := apply_patch b o in
        {| http_status := 200;
           returned := Some data;
           table := <[order_id := data]> db;
           started :=
             if trigger then [ {| task_id := order_id; task_row := data |} ]
             else [] |}
    end.

(** [.update({ status })] on one row. *)
Definition set_status (s : string) (o : Order) : Order :=
  apply_patch {| p_status := Some s; p_lalamove_order_id := None;
                 p_lalamove_status := None; p_lalamove_tracking_url := None |} o.

(** [PATCH /api/orders/bulk] for a body [{ ids, status }] whose [ids] is an
    array of strings: [.update({ status }).in('id', ids).select()], and
    nothing after it but the response. *)
Definition PATCH_bulk (ids : list string) (new_status : string) (db : Table) : Outcome :=
  match ids with
  | [] => refuse 400 db
  | _ =>
      if is_empty new_status then refuse 400 db
      else if negb (valid_status new_status) then refuse 400 db
      else
        {| http_status := 200;
           returned := None;
           table := foldr (fun k m => alter (set_status new_status) k m) db ids;
           started := [] |}
  end.

(** What [createLalamoveOrder] posts to the order handler
    ([/api/lalamove/order]). *)
Record HandlerCall : Type := {
  c_quotationId : string;
  c_recipientName : string;
  c_recipientPhone : string;
  c_config : Lalamove.DeliveryStoreConfig;
  c_orderId : string
}.

(** What the order handler answers when its response is [ok]. *)
Record HandlerResult : Type := {
  r_orderId : string;
  r_status : string;
  r_shareLink : string
}.

(** What a background job depends on.  [site_settings] is what
    [getSiteSettings] returns; [buildLalamoveConfig] is the function of
    that name imported from [src/lib/lalamove], taken as given;
    [SUPABASE_ANON_KEY] is [process.env.NEXT_PUBLIC_SUPABASE_ANON_KEY];
    [order_handler] answers a call, [None] standing for a response that is
    not [ok] or a request that fails. *)
Record Env (SiteSettings : Type) : Type := {
  site_settings : option SiteSettings;
  buildLalamoveConfig : SiteSettings -> option Lalamove.DeliveryStoreConfig;
  SUPABASE_ANON_KEY : option string;
  order_handler : HandlerCall -> option HandlerResult
}.
Arguments site_settings {SiteSettings} _.
Arguments buildLalamoveConfig {SiteSettings} _ _.
Arguments SUPABASE_ANON_KEY {SiteSettings} _.
Arguments order_handler {SiteSettings} _ _.

(** The server between requests: the table and the calls made to the
    order handler so far, oldest first. *)
Record Server : Type := {
  orders : Table;
  calls : list HandlerCall
}.

Section Jobs.
Context {SiteSettings : Type} (env : Env SiteSettings).

(** [createLalamoveOrder] up to its [fetch]: the call, unless the key is
    missing. *)
Definition handler_call (quotationId recipientName recipientPhone : string)
           (config : Lalamove.DeliveryStoreConfig) (orderId : string)
  : option HandlerCall :=
  if present (SUPABASE_ANON_KEY env) then
    Some {| c_quotationId := quotationId;
            c_recipientName := recipientName;
            c_recipientPhone := Phone.normalizePhone recipientPhone;
            c_config :=
              {| Lalamove.market := Lalamove.market config;
                 Lalamove.serviceType := Lalamove.serviceType config;
                 Lalamove.sandbox := Lalamove.sandbox config;
                 Lalamove.storeName := Lalamove.storeName config;
                 Lalamove.storePhone := Phone.normalizePhone (Lalamove.storePhone config);
                 Lalamove.storeAddress := Lalamove.storeAddress config;
                 Lalamove.storeLatitude := Lalamove.storeLatitude config;
                 Lalamove.storeLongitude := Lalamove.storeLongitude config |};
            c_orderId := orderId |}
  else None.

(** The background job of lines 405-443, run to its end. *)
Definition run_task (t : Task) (sv : Server) : Server :=
  let data := task_row t in
  match site_settings env with
  | None => sv
  | Some siteSettings =>
      match buildLalamoveConfig env siteSettings with
      | None => sv
      | Some lalamoveConfig =>
          match lalamove_quotation_id data with
          | None => sv
          | Some quotationId =>
              if is_empty quotationId then sv
              else
                let normalizedPhone :=
                  match Phone.normalizePhoneNumber (Some (contact_number data)) with
                  | Some n => n   (* never empty *)
                  | None => contact_number data
                  end in
                match handler_call quotationId (customer_name data) normalizedPhone
                                   lalamoveConfig (id data) with
                | None => sv
                | Some call =>
                    let sv' := {| orders := orders sv; calls := calls sv ++ [call] |} in
                    match order_handler env call with
                    | None => sv'
                    | Some lalamoveResult =>
                        {| orders :=
                             alter
                               (apply_patch
                                  {| p_status := None;
                                     p_lalamove_order_id :=
                                       Some (Some (r_orderId lalamoveResult));
                                     p_lalamove_status :=
                                       Some (Some (r_status lalamoveResult));
                                     p_lalamove_tracking_url :=
                                       Some (Some (r_shareLink lalamoveResult)) |})
                               (task_id t) (orders sv);
                           calls := calls sv' |}
                    end
                end
          end
      end
  end.

(** A request served and every job it started run to its end. *)
Definition settle (out : Outcome) (sv : Server) : Server :=
  foldl (fun s t => run_task t s)
        {| orders := table out; calls := calls sv |} (started out).

End Jobs.

End Orders.

(* ===================================================================== *)
(** * A concrete run-time, upstream and store for the scenarios *)
(* ===================================================================== *)

Module Scenario.
Import Str JS Lalamove.

(** The double quote. *)
Definition dq : string := String "034" EmptyString.

(** Decimal forms of the Numbers that occur in the scenarios. *)
Definition number_forms : list (float * string) :=
  [ (14.625%float, "14.625"); (120.875%float, "120.875");
    (14.5%float, "14.5"); (121.25%float, "121.25");
    (infinity, "Infinity") ].

Definition number_text (x : float) : string :=
  match find (fun p => PrimFloat.eqb (fst p) x) number_forms with
  | Some p => snd p
  | None => "NaN"
  end.

Definition text_number (s : string) : float :=
  match find (fun p => String.eqb (snd p) s) number_forms with
  | Some p => fst p
  | None => nan
  end.

(** [toFixed(0)] of a non-negative quotient: the nearest integer, halves
    upwards. *)
Definition fixed0 (q : Q) : string := decimal (Qfloor (q + (1 # 2))).

(** A serialiser in the manner of [JSON.stringify], for values whose
    strings need no escape: a member that is [undefined] or a function is
    left out of an object and written [null] in an array. *)
Fixpoint stringify (v : value) : string :=
  match v with
  | VUndef | VNull | VNative _ => "null"
  | VBool true => "true"
  | VBool false => "false"
  | VNum x => number_text x
  | VStr s => dq +:+ s +:+ dq
  | VArr l => "[" +:+ join "," (map stringify l) +:+ "]"
  | VObj fs =>
      "{" +:+
      join ","
        ((fix members (fs : list (string * value)) : list string :=
            match fs with
            | [] => []
            | (k, x) :: r =>
                match x with
                | VUndef | VNative _ => members r
                | _ => (dq +:+ k +:+ dq +:+ ":" +:+ stringify x) :: members r
                end
            end) fs)
      +:+ "}"
  end.

(** Midnight of 1 January 2025 (UTC), in milliseconds. *)
Definition T0 : Z := 1735689600000.

(** The instants the quotations of the scenarios mention. *)
Definition instants : list (string * Z) :=
  [ ("2024-12-31T23:45:00Z", T0 - 900000);
    ("2024-12-31T23:55:00Z", T0 - 300000);
    ("2025-01-01T00:05:00Z", T0 + 300000);
    ("2025-01-01T01:00:00Z", T0 + 3600000) ].

Definition date_time (v : value) : option Z :=
  match v with
  | VStr s =>
      match find (fun p => String.eqb (fst p) s) instants with
      | Some p => Some (snd p)
      | None => None
      end
  | _ => None
  end.

Definition two_stops : value :=
  VArr [ VObj [ ("stopId", VStr "stop-a") ]; VObj [ ("stopId", VStr "stop-b") ] ].

(** A quotation envelope as the aggregator returns it. *)
Definition quotation (quotationId expiresAt : string) (scheduleAt : option string)
           (stops : value) : value :=
  VObj [ ("data",
          VObj ([ ("quotationId", VStr quotationId);
                  ("expiresAt", VStr expiresAt) ]
                ++ match scheduleAt with
                   | Some t => [ ("scheduleAt", VStr t) ]
                   | None => []
                   end
                ++ [ ("stops", stops) ])) ].

Definition q_expired : value :=
  quotation "q-expired" "2024-12-31T23:55:00Z" None two_stops.
Definition q_recent : value :=
  quotation "q-recent" "2025-01-01T00:05:00Z" (Some "2024-12-31T23:55:00Z") two_stops.
Definition q_stale : value :=
  quotation "q-stale" "2025-01-01T00:05:00Z" (Some "2024-12-31T23:45:00Z") two_stops.
Definition q_future : value :=
  quotation "q-future" "2025-01-01T00:05:00Z" (Some "2025-01-01T01:00:00Z") two_stops.
Definition q_nostops : value :=
  quotation "q-nostops" "2025-01-01T00:05:00Z" None (VArr []).
(** Expired five minutes ago and scheduled fifteen minutes ago. *)
Definition q_expired_stale : value :=
  quotation "q-expired-stale" "2024-12-31T23:55:00Z" (Some "2024-12-31T23:45:00Z")
            two_stops.
(** Not expired, scheduled five minutes ago, without stops. *)
Definition q_recent_nostops : value :=
  quotation "q-recent-nostops" "2025-01-01T00:05:00Z" (Some "2024-12-31T23:55:00Z")
            (VArr []).

Definition order_created : value :=
  VObj [ ("data",
          VObj [ ("orderId", VStr "ord-1");
                 ("status", VStr "ASSIGNING_DRIVER");
                 ("shareLink", VStr "https://share.sandbox.lalamove.com/ord-1") ]) ].

Definition quote_created : value :=
  VObj [ ("data",
          VObj [ ("quotationId", VStr "q-new");
                 ("priceBreakdown",
                  VObj [ ("total", VStr "120"); ("currency", VStr "PHP") ]);
                 ("expiresAt", VStr "2025-01-01T00:05:00Z") ]) ].

(** The bodies the upstream of the scenarios can send as JSON. *)
Definition documents : list value :=
  [ q_expired; q_recent; q_stale; q_future; q_nostops; order_created; quote_created;
    q_expired_stale; q_recent_nostops ].

(** A parser for the texts of [documents]; any other text is refused. *)
Definition parse (text : string) : option value :=
  find (fun v => String.eqb (stringify v) text) documents.

(** A stand-in for the digest: it keeps the key and the message
    readable. *)
Definition digest (secret message : string) : string :=
  "hmac-sha256(" +:+ secret +:+ "," +:+ message +:+ ")".

(** [s] up to the first [c], and what follows that [c], if there is
    one. *)
Fixpoint cut (c : ascii) (s : string) : string * option string :=
  match s with
  | EmptyString => (EmptyString, None)
  | String a r =>
      if Ascii.eqb a c then (EmptyString, Some r)
      else let '(h, t) := cut c r in (String a h, t)
  end.

(** What follows the first [c] of [s]. *)
Definition after (c : ascii) (s : string) : string :=
  match snd (cut c s) with
  | Some r => r
  | None => EmptyString
  end.

(** The segments of a path: the texts between its slashes. *)
Fixpoint split_slash (s : string) : list string :=
  match s with
  | EmptyString => [EmptyString]
  | String a r =>
      match split_slash r with
      | [] => [EmptyString]
      | h :: t => if Ascii.eqb a "/" then EmptyString :: h :: t else String a h :: t
      end
  end.

(** Dot segments resolved, left to right: [..] drops the segment before
    it, [.] drops itself, and either leaves an empty segment when it comes
    last.  [out] holds the segments kept so far, last first. *)
Fixpoint resolve_dots (segs out : list string) : list string :=
  match segs with
  | [] => rev out
  | s :: r =>
      let last := match r with [] => true | _ => false end in
      if String.eqb s ".." then
        resolve_dots r (if last then EmptyString :: tl out else tl out)
      else if String.eqb s "." then
        resolve_dots r (if last then EmptyString :: out else out)
      else resolve_dots r (s :: out)
  end.

(** A space written as [%20]. *)
Fixpoint encode_space (s : string) : string :=
  match s with
  | EmptyString => EmptyString
  | String a r =>
      if Ascii.eqb a " " then "%20" +:+ encode_space r
      else String a (encode_space r)
  end.

(** A URL parser in the manner of the platform's, for an [https] URL whose
    host is followed by a path, as the URLs of the route are: the fragment
    is dropped, the query is kept, the dot segments of the path are
    resolved and spaces are percent-encoded. *)
Definition target (url : string) : string :=
  let rest := after "/" (after "/" (after "/" url)) in
  let before_fragment := fst (cut "#" rest) in
  let '(path, query) := cut "?" before_fragment in
  "/" +:+ join "/" (map encode_space (resolve_dots (split_slash path) []))
  +:+ match query with
      | Some q => if is_empty q then EmptyString else "?" +:+ encode_space q
      | None => EmptyString
      end.

#[local] Instance runtime : Runtime := {|
  Number_toString := number_text;
  StringToNumber := text_number;
  Number_toFixed0 := fixed0;
  JSON_parse := parse;
  JSON_stringify := stringify;
  Date_time := date_time;
  hmac_sha256_hex := digest;
  URL_target := target
|}.

Definition sandbox_v3 : string := "https://rest.sandbox.lalamove.com/v3".

(** The answers of the upstream, by method and URL. *)
Definition routes : list (string * string * HttpResponse) :=
  [ ("GET", sandbox_v3 +:+ "/quotations/q-expired",
     {| res_status := 200; res_text := stringify q_expired |});
    ("GET", sandbox_v3 +:+ "/quotations/q-recent",
     {| res_status := 200; res_text := stringify q_recent |});
    ("GET", sandbox_v3 +:+ "/quotations/q-stale",
     {| res_status := 200; res_text := stringify q_stale |});
    ("GET", sandbox_v3 +:+ "/quotations/q-future",
     {| res_status := 200; res_text := stringify q_future |});
    ("GET", sandbox_v3 +:+ "/quotations/q-nostops",
     {| res_status := 200; res_text := stringify q_nostops |});
    ("GET", sandbox_v3 +:+ "/quotations/q-expired-stale",
     {| res_status := 200; res_text := stringify q_expired_stale |});
    ("GET", sandbox_v3 +:+ "/quotations/q-recent-nostops",
     {| res_status := 200; res_text := stringify q_recent_nostops |});
    ("GET", sandbox_v3 +:+ "/quotations/q-html",
     {| res_status := 200; res_text := "<html>Bad Gateway</html>" |});
    ("GET", sandbox_v3 +:+ "/quotations/q-gone",
     {| res_status := 404; res_text := EmptyString |});
    ("POST", sandbox_v3 +:+ "/orders",
     {| res_status := 201; res_text := stringify order_created |});
    ("POST", sandbox_v3 +:+ "/quotations",
     {| res_status := 201; res_text := stringify quote_created |}) ].

Definition answer (history : list Request) (r : Request) : fetch_result :=
  match find (fun e => String.eqb (fst (fst e)) (req_method r)
                       && String.eqb (snd (fst e)) (req_url r)) routes with
  | Some e => Responded (snd e)
  | None => Responded {| res_status := 404; res_text := "Not Found" |}
  end.

Definition secrets (key : string) : option string :=
  if String.eqb key "LALAMOVE_API_SECRET" then Some "sk_test"
  else if String.eqb key "LALAMOVE_API_KEY" then Some "pk_test"
  else None.

(** The clock reads [T0] and advances by a millisecond per reading. *)
Definition env : Env :=
  {| process_env := secrets;
     clock := fun k => T0 + Z.of_nat k;
     upstream := answer |}.

Definition w0 : World := {| trace := []; ticks := 0 |}.

Definition store : DeliveryStoreConfig :=
  {| market := "PH"; serviceType := "MOTORCYCLE"; sandbox := true;
     storeName := "Starrs"; storePhone := "09181234567";
     storeAddress := "Manila City Hall, Manila, Philippines";
     storeLatitude := 14.625%float; storeLongitude := 120.875%float |}.

(** The body of an order request for a quotation, without and with stop
    identifiers. *)
Definition order_body (quotationId : string) : value :=
  VObj [ ("quotationId", VStr quotationId);
         ("recipientName", VStr "Juan Dela Cruz");
         ("recipientPhone", VStr "09171234567") ].


(** The body of a quote request with the given address and latitude. *)
Definition quote_body (address : string) (lat : float) : value :=
  VObj [ ("deliveryAddress", VStr address);
         ("deliveryLat", VNum lat);
         ("deliveryLng", VNum 121.25%float) ].

End Scenario.

Module OrdersScenario.
Import Orders.

(** A delivery order placed with a quotation, not yet confirmed and with
    no courier order. *)
Definition order1 : Order :=
  {| id := "o1"; order_number := "1001";
     customer_name := "Juan Dela Cruz"; contact_number := "09171234567";
     service_type := "delivery"; status := "pending";
     lalamove_quotation_id := Some "q-recent";
     lalamove_order_id := None; lalamove_status := None;
     lalamove_tracking_url := None |}.

Definition db0 : Table := {[ "o1" := order1 ]}.

(** [{ status: 'confirmed' }]. *)
Definition confirm : Patch :=
  {| p_status := Some "confirmed"; p_lalamove_order_id := None;
     p_lalamove_status := None; p_lalamove_tracking_url := None |}.

(** Settings that yield the store of [Scenario], the key present, and an
    order handler that creates the courier order. *)
Definition env : Env unit :=
  {| site_settings := Some tt;
     buildLalamoveConfig := fun _ => Some Scenario.store;
     SUPABASE_ANON_KEY := Some "anon-key";
     order_handler := fun _ =>
       Some {| r_orderId := "ord-1"; r_status := "ASSIGNING_DRIVER";
               r_shareLink := "https://share.sandbox.lalamove.com/ord-1" |} |}.

Definition server0 : Server := {| orders := db0; calls := [] |}.

End OrdersScenario.

(* ===================================================================== *)
(** * Further vocabulary for the delivery route *)
(* ===================================================================== *)

Module RouteObservations.
Import Str JS Lalamove.

(** A computation that adds at most [n] requests to the trace, each of
    them satisfying [P]. *)
Definition sends {A : Type} (P : Request -> Prop) (n : nat) (m : M A) : Prop :=
  forall w, exists l,
    trace (snd (m w)) = (trace w ++ l)%list /\ Forall P l /\ (length l <= n)%nat.

(** A request of the order handler under [config]: handed to [fetch]
    with a URL string that begins with the host the configuration
    selects, carrying its market, and either a GET without a body or the
    POST of an order.  The rest of the URL of the GET is built from the
    quotation identifier of the request body as it comes; which path
    under the host it names is for the platform's parser to say. *)
Definition order_traffic (config : DeliveryStoreConfig) (req : Request) : Prop :=
  header "Market" (req_headers req) = Some (market config) /\
  startsWith (req_url req) (API_HOST (sandbox config) +:+ "/") = true /\
  ((req_method req = "GET" /\ req_body req = None)
   \/
   (req_method req = "POST" /\
    req_url req = API_HOST (sandbox config) +:+ "/v3/orders")).

(** A request of the quote handler under [config]. *)
Definition quote_traffic (config : DeliveryStoreConfig) (req : Request) : Prop :=
  header "Market" (req_headers req) = Some (market config) /\
  req_method req = "POST" /\
  req_url req = API_HOST (sandbox config) +:+ "/v3/quotations".

Section Content.
Context `{Runtime}.

(** What a request says if it posts an order for the request body [body]
    under [config]: the quotation asked for; the store as sender and the
    recipient of the body, each with a stop identifier that is present
    and with the phone normalised; proof of delivery enabled. *)
Definition order_content (body : value) (config : DeliveryStoreConfig)
           (req : Request) : Prop :=
  req_method req = "POST" ->
  let data := prop (req_payload req) "data" in
  let sender := prop data "sender" in
  let recipient := index (prop data "recipients") 0 in
  prop data "quotationId" = VStr (field_string body "quotationId") /\
  truthy (prop sender "stopId") = true /\
  prop sender "name" = VStr (storeName config) /\
  prop sender "phone" = VStr (Phone.normalizePhone (storePhone config)) /\
  truthy (prop recipient "stopId") = true /\
  prop recipient "name" = VStr (field_string body "recipientName") /\
  prop recipient "phone"
  = VStr (Phone.normalizePhone (field_string body "recipientPhone")) /\
  prop data "isPODEnabled" = VBool true.

End Content.

End RouteObservations.

(* ===================================================================== *)
(** * Further vocabulary for the orders routes *)
(* ===================================================================== *)

Module OrdersObservations.
Import Str JS Orders.


(** The columns an order is placed with. *)
Definition placed (o : Order)
  : string * string * string * string * string * option string :=
  (id o, order_number o, customer_name o, contact_number o, service_type o,
   lalamove_quotation_id o).

(** [{ status: s }]. *)
Definition status_only (s : string) : Patch :=
  {| p_status := Some s; p_lalamove_order_id := None;
     p_lalamove_status := None; p_lalamove_tracking_url := None |}.

(** A request that sets no status, or the status "confirmed". *)
Definition keeps_confirmed (b : Patch) : bool :=
  match p_status b with
  | None => true
  | Some s => String.eqb s "confirmed"
  end.

Section Serving.
Context {SiteSettings : Type} (env : Orders.Env SiteSettings).

(** Requests to the single-order route for the order [k], served one
    after another, the jobs of each run to their end before the next is
    served: the jobs each request started, in turn. *)
Fixpoint serve_all (k : string) (bs : list Patch) (sv : Server) : list (list Task) :=
  match bs with
  | [] => []
  | b :: r =>
      let out := PATCH k b (orders sv) in
      started out :: serve_all k r (settle env out sv)
  end.

End Serving.

(** The store configuration [createLalamoveOrder] sends: the one it is
    given, with the store's phone normalised. *)
Definition sent_config (config : Lalamove.DeliveryStoreConfig)
  : Lalamove.DeliveryStoreConfig :=
  {| Lalamove.market := Lalamove.market config;
     Lalamove.serviceType := Lalamove.serviceType config;
     Lalamove.sandbox := Lalamove.sandbox config;
     Lalamove.storeName := Lalamove.storeName config;
     Lalamove.storePhone := Phone.normalizePhone (Lalamove.storePhone config);
     Lalamove.storeAddress := Lalamove.storeAddress config;
     Lalamove.storeLatitude := Lalamove.storeLatitude config;
     Lalamove.storeLongitude := Lalamove.storeLongitude config |}.

(** The check of [buildConfig] on a configuration: no text empty, no
    coordinate NaN. *)
Definition complete (config : Lalamove.DeliveryStoreConfig) : bool :=
  negb (is_empty (Lalamove.market config)
        || is_empty (Lalamove.serviceType config)
        || is_empty (Lalamove.storeName config)
        || is_empty (Lalamove.storePhone config)
        || is_empty (Lalamove.storeAddress config)
        || PrimFloat.is_nan (Lalamove.storeLatitude config)
        || PrimFloat.is_nan (Lalamove.storeLongitude config)).

(** The object [createLalamoveOrder] hands to [JSON.stringify] (lines
    163-178). *)
Definition call_body (c : HandlerCall) : value :=
  VObj [ ("quotationId", VStr (c_quotationId c));
         ("recipientName", VStr (c_recipientName c));
         ("recipientPhone", VStr (c_recipientPhone c));
         ("market", VStr (Lalamove.market (c_config c)));
         ("sandbox", VBool (Lalamove.sandbox (c_config c)));
         ("storeName", VStr (Lalamove.storeName (c_config c)));
         ("storePhone", VStr (Lalamove.storePhone (c_config c)));
         ("storeAddress", VStr (Lalamove.storeAddress (c_config c)));
         ("storeLatitude", VNum (Lalamove.storeLatitude (c_config c)));
         ("storeLongitude", VNum (Lalamove.storeLongitude (c_config c)));
         ("serviceType", VStr (Lalamove.serviceType (c_config c)));
         ("metadata", VObj [ ("orderId", VStr (c_orderId c)) ]) ].

End OrdersObservations.

(* ===================================================================== *)
(** * A second run-time: request bodies as texts *)
(* ===================================================================== *)

Module Scenario2.
Import Str JS Lalamove.

(** The body of a request to [/api/lalamove/order] as the storefront
    sends it: the order fields and the store configuration. *)
Definition full_order_body : value :=
  VObj [ ("quotationId", VStr "q-recent");
         ("recipientName", VStr "Juan Dela Cruz");
         ("recipientPhone", VStr "09171234567");
         ("market", VStr "PH");
         ("sandbox", VBool true);
         ("storeName", VStr "Starrs");
         ("storePhone", VStr "09181234567");
         ("storeAddress", VStr "Manila City Hall, Manila, Philippines");
         ("storeLatitude", VNum 14.625%float);
         ("storeLongitude", VNum 120.875%float);
         ("serviceType", VStr "MOTORCYCLE") ].

(** The call the background job of the order [o1] makes. *)
Definition job_call : Orders.HandlerCall :=
  {| Orders.c_quotationId := "q-recent";
     Orders.c_recipientName := "Juan Dela Cruz";
     Orders.c_recipientPhone := "+639171234567";
     Orders.c_config := OrdersObservations.sent_config Scenario.store;
     Orders.c_orderId := "o1" |}.

Definition documents : list value :=
  (Scenario.documents
   ++ [ full_order_body; OrdersObservations.call_body job_call ])%list.

Definition parse (text : string) : option value :=
  find (fun v => String.eqb (Scenario.stringify v) text) documents.

#[local] Instance runtime : Runtime := {|
  Number_toString := Scenario.number_text;
  StringToNumber := Scenario.text_number;
  Number_toFixed0 := Scenario.fixed0;
  JSON_parse := parse;
  JSON_stringify := Scenario.stringify;
  Date_time := Scenario.date_time;
  hmac_sha256_hex := Scenario.digest;
  URL_target := Scenario.target
|}.

End Scenario2.

(* ===================================================================== *)
(** * Callers: the order manager and the scenario script *)
(* ===================================================================== *)

(** [src/components/OrderManager.tsx]: the selection of orders that is
    sent to the bulk route. *)
Module OrderManager.

(** [handleSelectOrder]: the function it passes to [setSelectedOrders],
<<
    prev => prev.includes(orderId)
      ? prev.filter(id => id !== orderId)
      : [...prev, orderId]
>> *)
Definition handleSelectOrder (orderId : string) (prev : list string) : list string :=
  if existsb (String.eqb orderId) prev
  then List.filter (fun id => negb (String.eqb id orderId)) prev
  else (prev ++ [orderId])%list.

(** [handleSelectAll]: the selection it sets, from the selection and the
    orders shown. *)
Definition handleSelectAll (selectedOrders : list string) (orders : list Orders.Order)
  : list string :=
  if Nat.eqb (length selectedOrders) (length orders) then []
  else map Orders.id orders.

End OrderManager.

(** [test-lalamove-scenarios.cjs]: the request of [makeRequest]. *)
Module Script.
Import Str JS Lalamove.

Definition HOST (IS_SANDBOX : bool) : string :=
  if IS_SANDBOX then "rest.sandbox.lalamove.com" else "rest.lalamove.com".

Section MakeRequest.
Context `{Runtime}.

(** What [makeRequest] signs and sends at the time [t], for the key, the
    secret, the market and the host of its configuration. *)
Definition makeRequest (API_KEY SECRET MARKET : string) (IS_SANDBOX : bool)
           (method path : string) (bodyData : value) (t : Z) : Request :=
  let body := JSON_stringify bodyData in
  let time := decimal t in
  let signaturePath := "/v3" +:+ path in
  let rawSignature :=
    time +:+ CRLF +:+ method +:+ CRLF +:+ signaturePath +:+ CRLF +:+ CRLF +:+ body in
  let signature := hmac_sha256_hex SECRET rawSignature in
  {| req_method := method;
     req_url := "https://" +:+ HOST IS_SANDBOX +:+ "/v3" +:+ path;
     req_headers :=
       [ ("Content-type", "application/json; charset=utf-8");
         ("Authorization", "hmac " +:+ API_KEY +:+ ":" +:+ time +:+ ":" +:+ signature);
         ("Accept", "application/json");
         ("Market", MARKET) ];
     req_body := Some body;
     req_payload := bodyData |}.

End MakeRequest.

End Script.

(* ===================================================================== *)
(** * Facts about strings and phone numbers *)
(* ===================================================================== *)

Module StrFacts.
Import Str.

Lemma space_not_digit c : is_space c = true -> is_digit c = false.
Proof.
  unfold is_space, is_digit. generalize (N_of_ascii c). intros n H.
  destruct (48 <=? n)%N eqn:E1, (n <=? 57)%N eqn:E2; try reflexivity.
  apply N.leb_le in E1, E2. exfalso.
  apply orb_true_iff in H as [H | H];
    [apply orb_true_iff in H as [H | H] |].
  - apply andb_true_iff in H as [_ H]. apply N.leb_le in H. lia.
  - apply N.eqb_eq in H. lia.
  - apply N.eqb_eq in H. lia.
Qed.

Lemma strip_all_digits s : all_digits (strip_non_digits s) = true.
Proof.
  induction s as [| c r IH]; simpl; [reflexivity |].
  destruct (is_digit c) eqn:E; simpl; [rewrite E |]; exact IH.
Qed.

Lemma strip_fixed s : all_digits s = true -> strip_non_digits s = s.
Proof.
  induction s as [| c r IH]; simpl; [reflexivity |].
  intros H. apply andb_true_iff in H as [Hc Hr].
  rewrite Hc, (IH Hr). reflexivity.
Qed.

Lemma all_digits_slice1 s : all_digits s = true -> all_digits (slice1 s) = true.
Proof.
  destruct s as [| c r]; simpl; [reflexivity |].
  intros H. apply andb_true_iff in H as [_ H]. exact H.
Qed.

Lemma strip_trimStart s : strip_non_digits (trimStart s) = strip_non_digits s.
Proof.
  induction s as [| c r IH]; simpl; [reflexivity |].
  destruct (is_space c) eqn:E; [| reflexivity].
  rewrite (space_not_digit _ E). exact IH.
Qed.

Lemma strip_trimEnd s : strip_non_digits (trimEnd s) = strip_non_digits s.
Proof.
  induction s as [| c r IH]; simpl; [reflexivity |].
  destruct (is_space c) eqn:E; simpl.
  - rewrite (space_not_digit _ E).
    destruct (trimEnd r) as [| d r'] eqn:Er; simpl in *.
    + exact IH.
    + rewrite (space_not_digit _ E). exact IH.
  - destruct (is_digit c); rewrite IH; reflexivity.
Qed.

Lemma strip_trim s : strip_non_digits (trim s) = strip_non_digits s.
Proof. unfold trim. rewrite strip_trimEnd. apply strip_trimStart. Qed.

End StrFacts.

Module PhoneFacts.
Import Str StrFacts Phone.

(** The canonical form is a fixed point of the digit analysis. *)
Lemma to_e164_digits d :
  all_digits d = true -> is_empty d = false ->
  exists d', to_e164 d = "+" +:+ d' /\ all_digits d' = true /\
             startsWith d' "63" = true.
Proof.
  intros Hd Hne. unfold to_e164.
  destruct (startsWith d "63") eqn:E63.
  - exists d. auto.
  - destruct (startsWith d "0").
    + exists ("63" +:+ slice1 d).
      split; [reflexivity | split; [| reflexivity]].
      apply (all_digits_slice1 _ Hd).
    + assert (G : exists d', "+63" +:+ d = "+" +:+ d' /\
                 all_digits d' = true /\ startsWith d' "63" = true).
      { exists ("63" +:+ d).
        split; [reflexivity | split; [exact Hd | reflexivity]]. }
      destruct (startsWith d "9"); exact G.
Qed.

Lemma to_e164_canonical d' :
  all_digits d' = true -> startsWith d' "63" = true ->
  strip_non_digits ("+" +:+ d') = d' /\ to_e164 d' = "+" +:+ d'.
Proof.
  intros Hd H63. split.
  - simpl. apply strip_fixed, Hd.
  - unfold to_e164. rewrite H63. reflexivity.
Qed.

Lemma prefix63_nonempty d : startsWith d "63" = true -> is_empty d = false.
Proof. destruct d; [discriminate | reflexivity]. Qed.

Lemma normalizePhone_canonical d' :
  all_digits d' = true -> startsWith d' "63" = true ->
  normalizePhone ("+" +:+ d') = "+" +:+ d'.
Proof.
  intros Hd H63. destruct (to_e164_canonical d' Hd H63) as [Hs He].
  unfold normalizePhone. rewrite Hs, He, (prefix63_nonempty _ H63).
  reflexivity.
Qed.

Lemma normalizePhone_shape x :
  normalizePhone x = x \/
  exists d', normalizePhone x = "+" +:+ d' /\ all_digits d' = true /\
             startsWith d' "63" = true.
Proof.
  unfold normalizePhone.
  destruct (is_empty x); [left; reflexivity |].
  destruct (is_empty (strip_non_digits x)) eqn:Ed; [left; reflexivity |].
  right. exact (to_e164_digits _ (strip_all_digits x) Ed).
Qed.

Lemma normalizePhone_idem x : normalizePhone (normalizePhone x) = normalizePhone x.
Proof.
  destruct (normalizePhone_shape x) as [E | (d' & E & Hd & H63)].
  - rewrite E. exact E.
  - rewrite E. apply normalizePhone_canonical; assumption.
Qed.

Lemma normalizePhoneNumber_canonical d' :
  all_digits d' = true -> startsWith d' "63" = true ->
  normalizePhoneNumber (Some ("+" +:+ d')) = Some ("+" +:+ d').
Proof.
  intros Hd H63. destruct (to_e164_canonical d' Hd H63) as [Hs He].
  assert (Ht : strip_non_digits (trim ("+" +:+ d')) = d')
    by (rewrite strip_trim; exact Hs).
  pose proof (prefix63_nonempty _ H63) as Hne.
  assert (Et : is_empty (trim ("+" +:+ d')) = false).
  { destruct (trim ("+" +:+ d')); [| reflexivity].
    simpl in Ht. subst d'. discriminate. }
  unfold normalizePhoneNumber.
  change (is_empty ("+" +:+ d')) with false. cbv iota zeta.
  rewrite Et, Ht, Hne, He. reflexivity.
Qed.

Lemma normalizePhoneNumber_shape x :
  normalizePhoneNumber x = None \/
  exists d', normalizePhoneNumber x = Some ("+" +:+ d') /\
             all_digits d' = true /\ startsWith d' "63" = true.
Proof.
  destruct x as [p |]; [| left; reflexivity].
  unfold normalizePhoneNumber.
  destruct (is_empty p); [left; reflexivity |].
  destruct (is_empty (trim p)); [left; reflexivity |].
  destruct (is_empty (strip_non_digits (trim p))) eqn:Ed; [left; reflexivity |].
  right.
  destruct (to_e164_digits _ (strip_all_digits (trim p)) Ed)
    as (d' & E & Hd & H63).
  exists d'. rewrite E. auto.
Qed.

Lemma normalizePhoneNumber_idem x :
  normalizePhoneNumber (normalizePhoneNumber x) = normalizePhoneNumber x.
Proof.
  destruct (normalizePhoneNumber_shape x) as [E | (d' & E & Hd & H63)].
  - rewrite E. reflexivity.
  - rewrite E. apply normalizePhoneNumber_canonical; assumption.
Qed.

(** C6. Phone normalisation is idempotent for every input string, in the
    copy of the delivery route ([normalizePhone]) and in the copy of the
    orders route ([normalizePhoneNumber], whose argument and result are
    [string | undefined]); and in both the local form 09171234567, the
    form 639171234567 with country code and the bare subscriber number
    9171234567 all normalise to +639171234567. *)
Theorem normalize_idempotent_both :
  (forall x, normalizePhone (normalizePhone x) = normalizePhone x) /\
  (forall x, normalizePhoneNumber (normalizePhoneNumber x) = normalizePhoneNumber x) /\
  normalizePhone "09171234567" = "+639171234567" /\
  normalizePhone "639171234567" = "+639171234567" /\
  normalizePhone "9171234567" = "+639171234567" /\
  normalizePhoneNumber (Some "09171234567") = Some "+639171234567" /\
  normalizePhoneNumber (Some "639171234567") = Some "+639171234567" /\
  normalizePhoneNumber (Some "9171234567") = Some "+639171234567".
Proof.
  split; [exact normalizePhone_idem |].
  split; [exact normalizePhoneNumber_idem |].
  repeat split; reflexivity.
Qed.

End PhoneFacts.

(* ===================================================================== *)
(** * Facts about the delivery route *)
(* ===================================================================== *)

Module LalamoveFacts.
Import Str JS Lalamove.

Section Client.
Context `{Runtime} (env : Env).

Lemma getEnv_some key v w : env_var env key = Some v -> getEnv env key w = (Ok v, w).
Proof.
  unfold env_var, getEnv. destruct (process_env env key) as [x |]; [| discriminate].
  destruct (is_empty x); [discriminate |]. intros [= ->]. reflexivity.
Qed.

Lemma getEnv_none key w :
  env_var env key = None -> getEnv env key w = (Throw (MissingEnv key), w).
Proof.
  unfold env_var, getEnv. destruct (process_env env key) as [x |]; [| reflexivity].
  destruct (is_empty x); [reflexivity | discriminate].
Qed.

Lemma proxyRequest_eq path payload market sandbox method secret apiKey w :
  env_var env "LALAMOVE_API_SECRET" = Some secret ->
  env_var env "LALAMOVE_API_KEY" = Some apiKey ->
  let r := upstream_request path payload market sandbox method secret apiKey
                            (clock env (ticks w)) in
  proxyRequest env path payload market sandbox method w
  = (proxy_outcome (upstream env (trace w) r), sent w r).
Proof.
  intros Hs Hk r. subst r. unfold proxyRequest, bind.
  rewrite (getEnv_some _ _ _ Hs), (getEnv_some _ _ _ Hk).
  unfold signPayload, bind, new_Date, ret, fetch. cbn [trace ticks].
  unfold proxy_outcome, sent, upstream_request.
  match goal with
  | |- context [upstream env ?t ?q] => destruct (upstream env t q) as [| res]
  end; [reflexivity |].
  destruct (negb (res_ok res)); [reflexivity |].
  destruct (JSON_parse (res_text res)); reflexivity.
Qed.

Lemma proxyRequest_missing path payload market sandbox method w :
  env_var env "LALAMOVE_API_SECRET" = None \/ env_var env "LALAMOVE_API_KEY" = None ->
  exists key,
    proxyRequest env path payload market sandbox method w = (Throw (MissingEnv key), w).
Proof.
  intros Hm. unfold proxyRequest, bind.
  destruct (env_var env "LALAMOVE_API_SECRET") as [secret |] eqn:Hs.
  - destruct Hm as [Hm | Hm]; [discriminate |].
    rewrite (getEnv_some _ _ _ Hs), (getEnv_none _ _ Hm). eauto.
  - rewrite (getEnv_none _ _ Hs). eauto.
Qed.

(** A call that returns has sent exactly its request. *)
Lemma proxyRequest_returns path payload market sandbox method w res w' :
  proxyRequest env path payload market sandbox method w = (Ok res, w') ->
  exists secret apiKey,
    env_var env "LALAMOVE_API_SECRET" = Some secret /\
    env_var env "LALAMOVE_API_KEY" = Some apiKey /\
    w' = sent w (upstream_request path payload market sandbox method secret apiKey
                                  (clock env (ticks w))).
Proof.
  intros Hrun.
  destruct (env_var env "LALAMOVE_API_SECRET") as [secret |] eqn:Hs.
  2:{ destruct (proxyRequest_missing path payload market sandbox method w) as [k Hk];
      [left; exact Hs |]. rewrite Hk in Hrun. discriminate. }
  destruct (env_var env "LALAMOVE_API_KEY") as [apiKey |] eqn:Hk.
  2:{ destruct (proxyRequest_missing path payload market sandbox method w) as [k Hk'];
      [right; exact Hk |]. rewrite Hk' in Hrun. discriminate. }
  exists secret, apiKey. rewrite (proxyRequest_eq _ _ _ _ _ _ _ _ Hs Hk) in Hrun.
  injection Hrun as _ <-. auto.
Qed.

Lemma buildUpstreamUrl_host path sandbox :
  buildUpstreamUrl path sandbox = API_HOST sandbox +:+ ("/v3" +:+ path).
Proof. destruct sandbox; reflexivity. Qed.

End Client.

Section Equations.
Context `{Runtime} (env : Env).

(** ** Equations of the two handlers *)




Lemma handleOrder_fetched body config w d w1 :
  order_fields_present body = true ->
  stops_supplied body = false ->
  fetch_quotation env (field_string body "quotationId") config w = (Ok (PData d), w1) ->
  handleOrder env body config w
  = match inspect_quotation (clock env (ticks w1)) d with
    | inl response => (Ok response, tick w1)
    | inr (s, r, q, u) =>
        submit_order env (payload_of body config s r q u) config (tick w1)
    end.
Proof.
  unfold order_fields_present, stops_supplied, handleOrder. intros E S F.
  apply negb_true_iff in E. rewrite E.
  rewrite <- negb_andb, S. cbn [negb].
  unfold bind at 1. unfold resolve_stops, try_catch, bind at 1. rewrite F.
  unfold bind, new_Date, ret. fold (tick w1).
  destruct (inspect_quotation (clock env (ticks w1)) d) as [r | [[[s r] q] u]];
    reflexivity.
Qed.

(** A quotation that was fetched leaves exactly one request behind, a
    [GET], and proves the two secrets present. *)
Lemma fetch_quotation_returns quotationId config w res w1 :
  fetch_quotation env quotationId config w = (Ok res, w1) ->
  exists secret apiKey g,
    env_var env "LALAMOVE_API_SECRET" = Some secret /\
    env_var env "LALAMOVE_API_KEY" = Some apiKey /\
    w1 = sent w g /\ req_method g = "GET".
Proof.
  intros F. apply proxyRequest_returns in F as (secret & apiKey & Hs & Hk & ->).
  exists secret, apiKey. eexists. repeat split; eauto.
Qed.






End Equations.

(** ** Every request goes through the upstream client *)

Section Traces.
Context `{Runtime} (env : Env).

Lemma sends_only_silent {A} (P : Request -> Prop) (m : M A) :
  (forall w, trace (snd (m w)) = trace w) -> sends_only P m.
Proof.
  intros Hm w. exists []. rewrite app_nil_r. split; [apply Hm | constructor].
Qed.

Lemma sends_only_ret {A} (P : Request -> Prop) (a : A) : sends_only P (ret a).
Proof. apply sends_only_silent. reflexivity. Qed.

Lemma sends_only_lift {A} (P : Request -> Prop) (o : outcome A) : sends_only P (lift o).
Proof. apply sends_only_silent. reflexivity. Qed.

Lemma sends_only_new_Date (P : Request -> Prop) : sends_only P (new_Date env).
Proof. apply sends_only_silent. reflexivity. Qed.

Lemma sends_only_bind {A B} (P : Request -> Prop) (m : M A) (k : A -> M B) :
  sends_only P m -> (forall a, sends_only P (k a)) -> sends_only P (bind m k).
Proof.
  intros Hm Hk w. unfold bind. destruct (Hm w) as (l1 & E1 & F1).
  destruct (m w) as [[a | e] w1]; cbn [snd] in E1.
  - destruct (Hk a w1) as (l2 & E2 & F2). exists (l1 ++ l2)%list.
    rewrite E2, E1, app_assoc. split; [reflexivity |].
    apply Forall_app. split; assumption.
  - exists l1. split; assumption.
Qed.

Lemma sends_only_try_catch {A} (P : Request -> Prop) (m : M A) (h : exn -> M A) :
  sends_only P m -> (forall e, sends_only P (h e)) -> sends_only P (try_catch m h).
Proof.
  intros Hm Hh w. unfold try_catch. destruct (Hm w) as (l1 & E1 & F1).
  destruct (m w) as [[a | e] w1]; cbn [snd] in E1.
  - exists l1. split; assumption.
  - destruct (Hh e w1) as (l2 & E2 & F2). exists (l1 ++ l2)%list.
    rewrite E2, E1, app_assoc. split; [reflexivity |].
    apply Forall_app. split; assumption.
Qed.

Lemma sends_only_proxyRequest path payload market sandbox method :
  sends_only (from_client env) (proxyRequest env path payload market sandbox method).
Proof.
  intros w.
  destruct (env_var env "LALAMOVE_API_SECRET") as [secret |] eqn:Hs.
  2:{ destruct (proxyRequest_missing env path payload market sandbox method w
                  (or_introl Hs)) as [k ->].
      exists []. rewrite app_nil_r. split; [reflexivity | constructor]. }
  destruct (env_var env "LALAMOVE_API_KEY") as [apiKey |] eqn:Hk.
  2:{ destruct (proxyRequest_missing env path payload market sandbox method w
                  (or_intror Hk)) as [k ->].
      exists []. rewrite app_nil_r. split; [reflexivity | constructor]. }
  rewrite (proxyRequest_eq env _ _ _ _ _ _ _ _ Hs Hk). cbv zeta.
  eexists [_]. split; [reflexivity |].
  constructor; [| constructor].
  exists path, payload, market, sandbox, method, secret, apiKey, (clock env (ticks w)).
  auto.
Qed.

Lemma sends_only_handleQuote body config :
  sends_only (from_client env) (handleQuote env body config).
Proof.
  unfold handleQuote.
  destruct (_ || _ || _); [apply sends_only_ret |].
  apply sends_only_bind; [apply sends_only_proxyRequest |].
  intros [e st | d]; [apply sends_only_ret |].
  apply sends_only_bind; [apply sends_only_lift | intros dd; apply sends_only_ret].
Qed.

Lemma sends_only_submit_order payload config :
  sends_only (from_client env) (submit_order env payload config).
Proof.
  unfold submit_order.
  apply sends_only_bind; [apply sends_only_proxyRequest |].
  intros [e st | d]; [apply sends_only_ret |].
  apply sends_only_bind; [apply sends_only_lift | intros dd; apply sends_only_ret].
Qed.

Lemma sends_only_resolve_stops quotationId config :
  sends_only (from_client env) (resolve_stops env quotationId config).
Proof.
  unfold resolve_stops, fetch_quotation.
  apply sends_only_try_catch; [| intros e; apply sends_only_ret].
  apply sends_only_bind; [apply sends_only_proxyRequest |].
  intros [e st | d]; [apply sends_only_ret |].
  apply sends_only_bind; [apply sends_only_new_Date | intros now; apply sends_only_ret].
Qed.

Lemma sends_only_handleOrder body config :
  sends_only (from_client env) (handleOrder env body config).
Proof.
  unfold handleOrder.
  destruct (_ || _ || _); [apply sends_only_ret |].
  apply sends_only_bind.
  - destruct (_ || _); [apply sends_only_resolve_stops | apply sends_only_ret].
  - intros [r | [[[s r] q] u]]; [apply sends_only_ret | apply sends_only_submit_order].
Qed.

(** Whatever the action and the body of a request to the route, the
    requests it sends upstream are those of the upstream client. *)
Lemma sends_only_POST action raw :
  sends_only (from_client env) (POST env action raw).
Proof.
  unfold POST.
  destruct (_ && _); [apply sends_only_ret |].
  destruct (JSON_parse raw) as [body |]; [| apply sends_only_ret].
  destruct (buildConfig body) as [config |]; [| apply sends_only_ret].
  destruct (String.eqb action "quote");
    [apply sends_only_handleQuote | apply sends_only_handleOrder].
Qed.

End Traces.

(** ** The properties of the design document *)

Section Properties.
Context `{Runtime} (env : Env).

(** C7, where the code departs from it. Whenever the upstream client
    sends a request, the text it signs is timestamp, CR LF, method, CR LF,
    path, CR LF CR LF, body, where the body is the empty string for a GET
    request and the path is the request path prefixed with the version
    segment /v3; the URL string it hands to [fetch] is the host followed
    by that same prefixed path.  The path requested on the wire is what
    the platform's parser makes of that string: it is the signed path
    only where the parser leaves the string as it is.  The two fixed paths
    /quotations and /orders are such; the path of the quotation fetch is
    built from the quotation identifier of the request body as it comes,
    and for an identifier with a fragment, a dot segment or a space the
    path requested is not the path signed. *)
Theorem signed_message_lockstep path payload market sandbox method secret apiKey w :
  env_var env "LALAMOVE_API_SECRET" = Some secret ->
  env_var env "LALAMOVE_API_KEY" = Some apiKey ->
  let timestamp := decimal (clock env (ticks w)) in
  let body := if String.eqb method "GET" then EmptyString
              else JSON_stringify payload in
  let signed_path := "/v3" +:+ path in
  let message := timestamp +:+ CRLF +:+ method +:+ CRLF +:+ signed_path
                 +:+ CRLF +:+ CRLF +:+ body in
  exists req,
    trace (snd (proxyRequest env path payload market sandbox method w))
    = (trace w ++ [req])%list /\
    req_method req = method /\
    req_url req = API_HOST sandbox +:+ signed_path /\
    header "Authorization" (req_headers req)
    = Some ("hmac " +:+ apiKey +:+ ":" +:+ timestamp +:+ ":"
            +:+ hmac_sha256_hex secret message) /\
    (method = "GET" -> body = EmptyString /\ req_body req = None) /\
    (method <> "GET" -> req_body req = Some (JSON_stringify payload)) /\
    wire_target req = URL_target (API_HOST sandbox +:+ signed_path) /\
    (wire_target req = signed_path
     <-> URL_target (API_HOST sandbox +:+ signed_path) = signed_path).
Proof.
  intros Hs Hk timestamp body signed_path message.
  rewrite (proxyRequest_eq env _ _ _ _ _ _ _ _ Hs Hk). cbv zeta.
  eexists. split; [reflexivity |].
  unfold wire_target.
  cbn [snd sent trace req_method req_url req_headers req_body upstream_request header].
  split; [reflexivity |].
  split; [apply buildUpstreamUrl_host |].
  split; [reflexivity |].
  rewrite buildUpstreamUrl_host. fold signed_path.
  subst body. split; [| split; [| split; [reflexivity | reflexivity]]].
  - intros ->. split; reflexivity.
  - intros Hne. destruct (String.eqb_spec method "GET"); [contradiction | reflexivity].
Qed.

(** C8, as the code has it. For the answer to an upstream request: a
    status outside 200-299 makes the client return the error value with
    that status and the raw body (a fixed text when the body is
    empty); a status in 200-299 with a body that parses makes it
    return the parsed data; a status in 200-299 with a body that does
    not parse makes it throw, the exception of [JSON.parse] leaving the
    client for its caller. *)
Theorem upstream_client_results path payload market sandbox method secret apiKey w r :
  env_var env "LALAMOVE_API_SECRET" = Some secret ->
  env_var env "LALAMOVE_API_KEY" = Some apiKey ->
  upstream env (trace w)
    (upstream_request path payload market sandbox method secret apiKey
                      (clock env (ticks w)))
  = Responded r ->
  let out := fst (proxyRequest env path payload market sandbox method w) in
  (res_ok r = false ->
   out = Ok (PError (if is_empty (res_text r) then "Lalamove upstream error"
                     else res_text r)
                    (res_status r))) /\
  (res_ok r = true ->
   forall data, JSON_parse (res_text r) = Some data -> out = Ok (PData data)) /\
  (res_ok r = true -> JSON_parse (res_text r) = None -> out = Throw SyntaxError).
Proof.
  intros Hs Hk Hr out. subst out.
  rewrite (proxyRequest_eq env _ _ _ _ _ _ _ _ Hs Hk). cbv zeta.
  cbn [fst]. rewrite Hr. unfold proxy_outcome.
  repeat split.
  - intros ->. reflexivity.
  - intros -> data ->. reflexivity.
  - intros -> ->. reflexivity.
Qed.


Lemma inspect_expired now d t :
  let quotation := prop d "data" ||| d in
  let expiresAt := prop quotation "expiresAt" in
  truthy expiresAt = true -> Date_time expiresAt = Some t -> t < now ->
  inspect_quotation now d
  = inl (respond
           (error_body ("Quotation has expired. Expired at "
                        +:+ to_string expiresAt
                        +:+ ". Please request a new quotation."))
           400).
Proof.
  intros quotation expiresAt T D L.
  unfold inspect_quotation, check_expiry. fold quotation. fold expiresAt.
  rewrite T, D. apply Z.ltb_lt in L. rewrite L. reflexivity.
Qed.

(** C2. When the order handler fetches the quotation and the
    quotation's expiry time lies before the current time, the handler
    answers 400 with a message that quotes the expiry timestamp, and
    the only request it has sent is the GET of the quotation: nothing
    is posted to /orders. *)
Theorem expired_quotation_is_rejected body config w d w1 t :
  order_fields_present body = true ->
  stops_supplied body = false ->
  fetch_quotation env (field_string body "quotationId") config w
  = (Ok (PData d), w1) ->
  let quotation := prop d "data" ||| d in
  let expiresAt := prop quotation "expiresAt" in
  truthy expiresAt = true ->
  Date_time expiresAt = Some t ->
  t < clock env (ticks w1) ->
  handleOrder env body config w
  = (Ok (respond
           (error_body ("Quotation has expired. Expired at "
                        +:+ to_string expiresAt
                        +:+ ". Please request a new quotation."))
           400),
     tick w1)
  /\ exists g, trace (tick w1) = (trace w ++ [g])%list /\ req_method g = "GET".
Proof.
  intros V S F quotation expiresAt T D L. split.
  - rewrite (handleOrder_fetched env body config w d w1 V S F).
    rewrite (inspect_expired _ d t T D L). reflexivity.
  - apply fetch_quotation_returns in F as (secret & apiKey & g & _ & _ & -> & G).
    exists g. split; [reflexivity | exact G].
Qed.
(** *** The schedule window *)




Lemma inspect_passed now d use :
  let quotation := prop d "data" ||| d in
  check_expiry now quotation = None ->
  check_schedule now quotation = inr use ->
  inspect_quotation now d
  = if truthy (fst (extract_stops quotation))
       && truthy (snd (extract_stops quotation))
    then inr (fst (extract_stops quotation), snd (extract_stops quotation),
              prop quotation "scheduleAt", use)
    else inl (respond
                (error_body "Failed to extract stop IDs from quotation. Please check quotation response structure.")
                500).
Proof.
  intros quotation E S. unfold inspect_quotation. fold quotation.
  rewrite E, S. destruct (extract_stops quotation) as [a b]. cbn [fst snd].
  rewrite <- negb_andb. destruct (truthy a && truthy b); reflexivity.
Qed.



Lemma check_expiry_status now quotation r :
  check_expiry now quotation = Some r -> resp_status r = 400.
Proof.
  unfold check_expiry. destruct (truthy _); [| discriminate].
  destruct (Date_time _) as [t |]; [| discriminate].
  destruct (t <? now); [| discriminate]. intros [= <-]. reflexivity.
Qed.

Lemma check_schedule_status now quotation r :
  check_schedule now quotation = inl r -> resp_status r = 400.
Proof.
  unfold check_schedule. destruct (truthy _); [| discriminate].
  destruct (Date_time _) as [t |]; [| discriminate].
  destruct (t <? now); [| discriminate].
  destruct (Qle_bool _ _); [discriminate |]. intros [= <-]. reflexivity.
Qed.

(** C4, as the code has it. When the order handler has fetched a
    quotation and the sender or the recipient stop identifier read from it
    is missing or empty, the handler answers with an error and the only
    request it has sent is the GET of the quotation.  The error is that
    of the expiry or schedule test, with status 400, when the quotation
    fails one of them; for a quotation that passes both it is the error
    about the stop identifiers, and its status is 500. *)
Theorem missing_stop_ids_fail body config w d w1 :
  order_fields_present body = true ->
  stops_supplied body = false ->
  fetch_quotation env (field_string body "quotationId") config w
  = (Ok (PData d), w1) ->
  let now := clock env (ticks w1) in
  let quotation := prop d "data" ||| d in
  truthy (fst (extract_stops quotation))
  && truthy (snd (extract_stops quotation)) = false ->
  exists r,
    handleOrder env body config w = (Ok r, tick w1) /\
    (resp_status r = 400 \/ resp_status r = 500) /\
    (check_expiry now quotation = None ->
     (exists use, check_schedule now quotation = inr use) ->
     r = respond
           (error_body "Failed to extract stop IDs from quotation. Please check quotation response structure.")
           500) /\
    exists g, trace (tick w1) = (trace w ++ [g])%list /\ req_method g = "GET".
Proof.
  intros V S F now quotation M.
  rewrite (handleOrder_fetched env body config w d w1 V S F). fold now.
  assert (G : exists g, trace (tick w1) = (trace w ++ [g])%list /\ req_method g = "GET").
  { apply fetch_quotation_returns in F as (secret & apiKey & g & _ & _ & -> & G).
    exists g. split; [reflexivity | exact G]. }
  destruct (check_expiry now quotation) as [e |] eqn:E.
  { exists e. unfold inspect_quotation. fold quotation. rewrite E.
    split; [reflexivity |]. split; [left; exact (check_expiry_status _ _ _ E) |].
    split; [discriminate | exact G]. }
  destruct (check_schedule now quotation) as [e | use] eqn:C.
  { exists e. unfold inspect_quotation. fold quotation. rewrite E, C.
    split; [reflexivity |]. split; [left; exact (check_schedule_status _ _ _ C) |].
    split; [| exact G]. intros _ [use' Hu]. discriminate. }
  eexists. rewrite (inspect_passed now d use E C). fold quotation. rewrite M.
  split; [reflexivity |]. split; [right; reflexivity |].
  split; [reflexivity | exact G].
Qed.

End Properties.

(** ** Market to language *)

Lemma language_of_listed_market market l :
  lookup_field market language_map = Some (VStr l) -> is_empty l = false ->
  getLanguageForMarket market = VStr l.
Proof.
  intros Hl Hn. unfold getLanguageForMarket, literal_get, or_else.
  rewrite Hl. cbn. rewrite Hn. reflexivity.
Qed.

(** The fallback applies to a market that names neither an entry of the
    table nor a property of [Object.prototype]. *)
Lemma language_default market :
  lookup_field market language_map = None ->
  lookup_field market Object_prototype = None ->
  getLanguageForMarket market = VStr "en_US".
Proof.
  intros Hl Hp. unfold getLanguageForMarket, literal_get. rewrite Hl, Hp.
  reflexivity.
Qed.

(** C9, where the code departs from it. The seven markets of the table
    map to their language tags and the unknown market ZZ maps to en_US;
    but the market code "constructor", which is outside the table, does
    not map to en_US: the lookup finds the property of that name that the
    table inherits from [Object.prototype], and returns it. *)
Theorem language_lookup_inherited_key :
  getLanguageForMarket "HK" = VStr "en_HK" /\
  getLanguageForMarket "SG" = VStr "en_SG" /\
  getLanguageForMarket "TH" = VStr "th_TH" /\
  getLanguageForMarket "PH" = VStr "en_PH" /\
  getLanguageForMarket "TW" = VStr "zh_TW" /\
  getLanguageForMarket "MY" = VStr "ms_MY" /\
  getLanguageForMarket "VN" = VStr "vi_VN" /\
  getLanguageForMarket "ZZ" = VStr "en_US" /\
  lookup_field "constructor" language_map = None /\
  getLanguageForMarket "constructor" = VNative "Object" /\
  getLanguageForMarket "constructor" <> VStr "en_US".
Proof. repeat split; try reflexivity. discriminate. Qed.

End LalamoveFacts.

(* ===================================================================== *)
(** * The scenarios of the delivery route *)
(* ===================================================================== *)

Module ScenarioFacts.
Import Str JS Lalamove LalamoveFacts Scenario.
#[local] Existing Instance Scenario.runtime.

(** Closes a goal of the scenarios by evaluation. *)
Ltac run := vm_compute; first [reflexivity | discriminate | intros ?; discriminate].

(** The world after the quotation [quotationId] has been fetched. *)
Definition fetched (quotationId : string) : World :=
  snd (fetch_quotation env quotationId store w0).

(** C2 at the quotation [q-expired], which expired five minutes before
    the clock is read. *)
Lemma expired_quotation_is_rejected_witness :
  handleOrder env (order_body "q-expired") store w0
  = (Ok (respond
           (error_body "Quotation has expired. Expired at 2024-12-31T23:55:00Z. Please request a new quotation.")
           400),
     tick (fetched "q-expired"))
  /\ exists g, trace (tick (fetched "q-expired")) = (trace w0 ++ [g])%list
               /\ req_method g = "GET".
Proof.
  refine (expired_quotation_is_rejected env (order_body "q-expired") store w0
            q_expired (fetched "q-expired") (T0 - 300000) _ _ _ _ _ _); run.
Defined.



(** C4 as stated fails at the quotation [q-nostops], whose list of stops
    is empty: neither stop identifier is found, and the handler answers
    500, not 400. *)
Lemma missing_stop_ids_answer_500 :
  stops_supplied (order_body "q-nostops") = false /\
  fst (fetch_quotation env "q-nostops" store w0) = Ok (PData q_nostops) /\
  extract_stops (prop q_nostops "data") = (VStr "", VStr "") /\
  fst (handleOrder env (order_body "q-nostops") store w0)
  = Ok (respond
          (error_body "Failed to extract stop IDs from quotation. Please check quotation response structure.")
          500) /\
  500 <> 400.
Proof. repeat split; run. Qed.

(** C4, as the code has it, at the quotation [q-nostops]. *)
Lemma missing_stop_ids_fail_witness :
  exists r,
    handleOrder env (order_body "q-nostops") store w0 = (Ok r, tick (fetched "q-nostops")) /\
    (resp_status r = 400 \/ resp_status r = 500) /\
    (check_expiry (clock env (ticks (fetched "q-nostops")))
                  (prop q_nostops "data" ||| q_nostops) = None ->
     (exists use, check_schedule (clock env (ticks (fetched "q-nostops")))
                                 (prop q_nostops "data" ||| q_nostops) = inr use) ->
     r = respond
           (error_body "Failed to extract stop IDs from quotation. Please check quotation response structure.")
           500) /\
    exists g, trace (tick (fetched "q-nostops")) = (trace w0 ++ [g])%list
              /\ req_method g = "GET".
Proof.
  refine (missing_stop_ids_fail env (order_body "q-nostops") store w0
            q_nostops (fetched "q-nostops") _ _ _ _); run.
Defined.



(** C7 at the fetch of the quotation [q-recent#1]: the path signed ends
    in the identifier as given, the path requested stops before the
    fragment. *)
Lemma signed_message_lockstep_witness :
  exists req,
    trace (snd (proxyRequest env "/quotations/q-recent#1" (VObj []) "PH" true "GET" w0))
    = (trace w0 ++ [req])%list /\
    req_method req = "GET" /\
    req_url req = "https://rest.sandbox.lalamove.com/v3/quotations/q-recent#1" /\
    header "Authorization" (req_headers req)
    = Some ("hmac " +:+ "pk_test" +:+ ":" +:+ decimal T0 +:+ ":"
            +:+ digest "sk_test"
                  (decimal T0 +:+ CRLF +:+ "GET" +:+ CRLF
                   +:+ "/v3/quotations/q-recent#1" +:+ CRLF +:+ CRLF
                   +:+ EmptyString)) /\
    ("GET" = "GET" -> EmptyString = EmptyString /\ req_body req = None) /\
    ("GET" <> "GET" -> req_body req = Some "{}") /\
    wire_target req = "/v3/quotations/q-recent" /\
    (wire_target req = "/v3/quotations/q-recent#1"
     <-> "/v3/quotations/q-recent" = "/v3/quotations/q-recent#1").
Proof.
  refine (signed_message_lockstep env "/quotations/q-recent#1" (VObj []) "PH" true "GET"
            "sk_test" "pk_test" w0 _ _); run.
Defined.

(** C7 as stated fails at an order request for the quotation identifier
    [q-recent#1]: the order handler fetches the quotation with a GET
    whose signature covers the path /v3/quotations/q-recent#1, while the
    path requested is /v3/quotations/q-recent.  For the two fixed paths
    the path requested is the path signed. *)
Lemma order_handler_signs_another_path :
  field_string (order_body "q-recent#1") "quotationId" = "q-recent#1" /\
  (exists g rest,
     trace (snd (handleOrder env (order_body "q-recent#1") store w0)) = g :: rest /\
     req_method g = "GET" /\
     header "Authorization" (req_headers g)
     = Some ("hmac pk_test:" +:+ decimal T0 +:+ ":"
             +:+ digest "sk_test"
                   (sign_message (decimal T0) "GET" "/v3/quotations/q-recent#1"
                                 EmptyString)) /\
     wire_target g = "/v3/quotations/q-recent" /\
     wire_target g <> "/v3/quotations/q-recent#1") /\
  URL_target (API_HOST true +:+ "/v3/quotations") = "/v3/quotations" /\
  URL_target (API_HOST true +:+ "/v3/orders") = "/v3/orders".
Proof.
  split; [run |]. split; [| split; run].
  eexists. eexists. split; [vm_compute; reflexivity |].
  repeat split; run.
Qed.

(** C8 as stated fails at the quotation [q-html]: the upstream answers 200
    with a body that is not JSON, and the client throws.  (At [q-gone],
    answered 404 with an empty body, the error value carries the fixed
    text in place of the body.) *)
Lemma proxy_throws_on_unparsable_body :
  upstream env (trace w0)
    (upstream_request "/quotations/q-html" (VObj []) "PH" true "GET"
                      "sk_test" "pk_test" (clock env (ticks w0)))
  = Responded {| res_status := 200; res_text := "<html>Bad Gateway</html>" |} /\
  fst (proxyRequest env "/quotations/q-html" (VObj []) "PH" true "GET" w0)
  = Throw SyntaxError /\
  fst (proxyRequest env "/quotations/q-gone" (VObj []) "PH" true "GET" w0)
  = Ok (PError "Lalamove upstream error" 404).
Proof. repeat split; run. Qed.

(** C8, as the code has it, at the same answer. *)
Lemma upstream_client_results_witness :
  let out := fst (proxyRequest env "/quotations/q-html" (VObj []) "PH" true "GET" w0) in
  let r := {| res_status := 200; res_text := "<html>Bad Gateway</html>" |} in
  (res_ok r = false ->
   out = Ok (PError (if is_empty (res_text r) then "Lalamove upstream error"
                     else res_text r)
                    (res_status r))) /\
  (res_ok r = true ->
   forall data, JSON_parse (res_text r) = Some data -> out = Ok (PData data)) /\
  (res_ok r = true -> JSON_parse (res_text r) = None -> out = Throw SyntaxError).
Proof.
  refine (upstream_client_results env "/quotations/q-html" (VObj []) "PH" true "GET"
            "sk_test" "pk_test" w0
            {| res_status := 200; res_text := "<html>Bad Gateway</html>" |} _ _ _);
    run.
Defined.


End ScenarioFacts.

(* ===================================================================== *)
(** * Facts about the orders routes *)
(* ===================================================================== *)

Module OrdersFacts.
Import Str Orders.

Lemma set_status_twice s o : set_status s (set_status s o) = set_status s o.
Proof. reflexivity. Qed.

Lemma set_status_status s o : status (set_status s o) = s.
Proof. reflexivity. Qed.

(** The table after a bulk update, row by row. *)
Lemma bulk_rows (s : string) (ids : list string) (db : Table) (k : string) (o : Order) :
  db !! k = Some o ->
  foldr (fun i m => alter (set_status s) i m) db ids !! k
  = Some (if decide (k ∈ ids) then set_status s o else o).
Proof.
  intros Hk. induction ids as [| a r IH]; cbn [foldr].
  - rewrite Hk. reflexivity.
  - rewrite lookup_alter. destruct (decide (a = k)) as [-> | Hne].
    + rewrite IH.
      rewrite (decide_True (P := k ∈ k :: r)) by apply list_elem_of_here.
      destruct (decide (k ∈ r)); reflexivity.
    + rewrite IH. destruct (decide (k ∈ r)) as [Hin | Hnin].
      * rewrite (decide_True (P := k ∈ a :: r))
          by (apply list_elem_of_further; exact Hin).
        reflexivity.
      * rewrite (decide_False (P := k ∈ a :: r)); [reflexivity |].
        intros Hin. apply elem_of_cons in Hin as [-> | Hin]; contradiction.
Qed.

(** The bulk route starts no background job, whatever it is asked. *)
Lemma bulk_starts_nothing ids s db : started (PATCH_bulk ids s db) = [].
Proof.
  unfold PATCH_bulk. destruct ids; [reflexivity |].
  destruct (is_empty s); [reflexivity |].
  destruct (negb (valid_status s)); reflexivity.
Qed.

(** The single-order route, when its guard holds: status 200, the row
    updated, and exactly one job started, before any call to the order
    handler is made. *)
Lemma single_confirm_starts_one_job k b db o :
  is_empty k = false ->
  p_status b = Some "confirmed" ->
  db !! k = Some o ->
  statusChangingToConfirmed (Some "confirmed") (Some o) = true ->
  PATCH k b db
  = {| http_status := 200;
       returned := Some (apply_patch b o);
       table := <[k := apply_patch b o]> db;
       started := [ {| task_id := k; task_row := apply_patch b o |} ] |}.
Proof.
  intros Hk Hs Ho Hg. unfold PATCH. rewrite Hk, Hs, Ho. cbn - [statusChangingToConfirmed].
  unfold no_fields. rewrite Hs, Hg. reflexivity.
Qed.

(** The guard of the single-order route is closed once a courier order
    identifier is stored. *)
Lemma single_confirm_guarded k b db o :
  db !! k = Some o ->
  present (lalamove_order_id o) = true ->
  started (PATCH k b db) = [].
Proof.
  intros Ho Hp. unfold PATCH.
  destruct (is_empty k); [reflexivity |].
  destruct (match p_status b with Some s => negb (valid_status s) | None => false end);
    [reflexivity |].
  destruct (no_fields b); [reflexivity |].
  rewrite Ho. cbn [started].
  unfold statusChangingToConfirmed. destruct (p_status b); [| reflexivity].
  rewrite Hp. cbn [negb]. rewrite andb_false_r. reflexivity.
Qed.

Section Jobs.
Context {SiteSettings : Type} (env : Env SiteSettings).

(** A job whose settings, configuration and key are available calls the
    order handler exactly once. *)
Lemma run_task_calls_once t sv settings config :
  site_settings env = Some settings ->
  buildLalamoveConfig env settings = Some config ->
  present (SUPABASE_ANON_KEY env) = true ->
  present (lalamove_quotation_id (task_row t)) = true ->
  exists call, calls (run_task env t sv) = (calls sv ++ [call])%list.
Proof.
  intros Hs Hc Hk Hq. unfold run_task. rewrite Hs, Hc.
  destruct (lalamove_quotation_id (task_row t)) as [q |]; [| discriminate].
  cbn in Hq. apply negb_true_iff in Hq. rewrite Hq.
  unfold handler_call. rewrite Hk.
  eexists. destruct (order_handler env _); reflexivity.
Qed.

End Jobs.

(** C1, where the code departs from it. Take an order that meets the
    conditions of the trigger (a delivery order, not yet confirmed, with a
    quotation and without a courier order) and a server whose settings,
    configuration and key are in place.  The single-order route answers
    200 and, once its background job has run, the order handler has been
    called exactly once more.  The bulk route, asked to confirm the same
    order, answers 200 and stores the status "confirmed", and the order
    handler is not called at all; and when the single-order route
    confirms the order again after the bulk update, it finds the order
    already confirmed and the order handler is not called either. *)
Theorem bulk_confirm_never_calls_handler
        {SiteSettings : Type} (env : Env SiteSettings) (settings : SiteSettings)
        (config : Lalamove.DeliveryStoreConfig)
        (ids : list string) (db : Table) (k : string) (o : Order) (sv : Server) :
  site_settings env = Some settings ->
  buildLalamoveConfig env settings = Some config ->
  present (SUPABASE_ANON_KEY env) = true ->
  is_empty k = false ->
  k ∈ ids ->
  db !! k = Some o ->
  statusChangingToConfirmed (Some "confirmed") (Some o) = true ->
  let confirm := {| p_status := Some "confirmed"; p_lalamove_order_id := None;
                    p_lalamove_status := None; p_lalamove_tracking_url := None |} in
  let single := PATCH k confirm db in
  let bulk := PATCH_bulk ids "confirmed" db in
  (http_status single = 200 /\
   exists call, calls (settle env single sv) = (calls sv ++ [call])%list) /\
  (http_status bulk = 200 /\
   table bulk !! k = Some (set_status "confirmed" o) /\
   calls (settle env bulk sv) = calls sv) /\
  calls (settle env (PATCH k confirm (table bulk)) sv) = calls sv.
Proof.
  intros Hs Hc Hkey Hk Hin Ho Hg confirm single bulk.
  assert (Hb : bulk = {| http_status := 200; returned := None;
                         table := foldr (fun i m => alter (set_status "confirmed") i m) db ids;
                         started := [] |}).
  { subst bulk. unfold PATCH_bulk. destruct ids; [inversion Hin | reflexivity]. }
  assert (Hrow : table bulk !! k = Some (set_status "confirmed" o)).
  { rewrite Hb. cbn [table]. rewrite (bulk_rows _ _ _ _ _ Ho).
    rewrite decide_True by exact Hin. reflexivity. }
  split; [| split; [split; [| split] |]].
  - subst single. rewrite (single_confirm_starts_one_job k confirm db o Hk eq_refl Ho Hg).
    split; [reflexivity |]. unfold settle. cbn [started table foldl].
    assert (Hq : present (lalamove_quotation_id o) = true).
    { unfold statusChangingToConfirmed in Hg.
      apply andb_true_iff in Hg as [Hg _]. apply andb_true_iff in Hg as [_ Hg].
      exact Hg. }
    destruct (run_task_calls_once env
                {| task_id := k; task_row := apply_patch confirm o |}
                {| orders := <[k := apply_patch confirm o]> db; calls := calls sv |}
                settings config Hs Hc Hkey Hq) as [call Hcall].
    exists call. exact Hcall.
  - rewrite Hb. reflexivity.
  - exact Hrow.
  - rewrite Hb. reflexivity.
  - unfold PATCH. rewrite Hk, Hrow. reflexivity.
Qed.

(** The scenario of C1: the order [o1] of the table [db0]. *)
Lemma bulk_confirm_never_calls_handler_witness :
  let single := PATCH "o1" OrdersScenario.confirm OrdersScenario.db0 in
  let bulk := PATCH_bulk ["o1"] "confirmed" OrdersScenario.db0 in
  (http_status single = 200 /\
   exists call,
     calls (settle OrdersScenario.env single OrdersScenario.server0)
     = ([] ++ [call])%list) /\
  (http_status bulk = 200 /\
   table bulk !! "o1" = Some (set_status "confirmed" OrdersScenario.order1) /\
   calls (settle OrdersScenario.env bulk OrdersScenario.server0) = []) /\
  calls (settle OrdersScenario.env
                (PATCH "o1" OrdersScenario.confirm (table bulk))
                OrdersScenario.server0) = [].
Proof.
  apply (bulk_confirm_never_calls_handler OrdersScenario.env tt Scenario.store
           ["o1"] OrdersScenario.db0 "o1" OrdersScenario.order1
           OrdersScenario.server0).
  - reflexivity.
  - reflexivity.
  - reflexivity.
  - reflexivity.
  - apply list_elem_of_here.
  - apply lookup_singleton_eq.
  - reflexivity.
Defined.

End OrdersFacts.

(* ===================================================================== *)
(** * Further facts: phone numbers *)
(* ===================================================================== *)

Module PhoneMore.
Import Str StrFacts Phone PhoneFacts.

Lemma startsWith_split s p : startsWith s p = true -> exists r, s = p +:+ r.
Proof.
  revert s. induction p as [| b p IH]; intros s Hs.
  - exists s. reflexivity.
  - destruct s as [| a s]; [discriminate |]. cbn in Hs.
    apply andb_true_iff in Hs as [Hab Hs]. apply Ascii.eqb_eq in Hab. subst b.
    destruct (IH s Hs) as [r ->]. exists r. reflexivity.
Qed.

Lemma all_digits_app s t : all_digits (s +:+ t) = all_digits s && all_digits t.
Proof.
  induction s as [| c r IH]; [reflexivity |].
  change (all_digits (String c r +:+ t))
    with (is_digit c && all_digits (r +:+ t)).
  rewrite IH. apply andb_assoc.
Qed.

Lemma normalizePhone_digits x :
  is_empty (strip_non_digits x) = false ->
  normalizePhone x = to_e164 (strip_non_digits x).
Proof.
  intros Hd. unfold normalizePhone. rewrite Hd.
  destruct x; [discriminate | reflexivity].
Qed.

Lemma normalizePhoneNumber_digits x :
  normalizePhoneNumber (Some x)
  = if is_empty (strip_non_digits x) then None
    else Some (to_e164 (strip_non_digits x)).
Proof.
  unfold normalizePhoneNumber.
  destruct (is_empty x) eqn:Ex.
  { destruct x; [reflexivity | discriminate]. }
  destruct (is_empty (trim x)) eqn:Et.
  { pose proof (strip_trim x) as St.
    destruct (trim x); [| discriminate]. cbn in St. rewrite <- St. reflexivity. }
  cbv zeta. rewrite strip_trim. reflexivity.
Qed.

(** X1. A phone number with at least one digit normalises to "+63"
    followed by digits only; a phone number without any digit is returned
    unchanged. *)
Theorem normalizePhone_e164 x :
  if is_empty (strip_non_digits x)
  then normalizePhone x = x
  else exists d, normalizePhone x = "+63" +:+ d /\ all_digits d = true.
Proof.
  destruct (is_empty (strip_non_digits x)) eqn:Hd.
  - unfold normalizePhone. rewrite Hd. destruct (is_empty x); reflexivity.
  - rewrite (normalizePhone_digits x Hd).
    destruct (to_e164_digits _ (strip_all_digits x) Hd) as (d' & -> & Ha & H63).
    destruct (startsWith_split _ _ H63) as [d ->].
    exists d. split; [reflexivity |].
    rewrite all_digits_app in Ha. apply andb_true_iff in Ha as [_ Ha]. exact Ha.
Qed.

(** X2. The two implementations agree wherever the second one answers:
    [normalizePhoneNumber] returns [undefined] exactly for a string without
    digits and otherwise the very result of [normalizePhone]. *)
Theorem normalizers_agree x :
  normalizePhoneNumber (Some x)
  = if is_empty (strip_non_digits x) then None else Some (normalizePhone x).
Proof.
  rewrite normalizePhoneNumber_digits.
  destruct (is_empty (strip_non_digits x)) eqn:Hd; [reflexivity |].
  rewrite (normalizePhone_digits x Hd). reflexivity.
Qed.

End PhoneMore.

(* ===================================================================== *)
(** * Further facts: the delivery route *)
(* ===================================================================== *)

Module RouteMore.
Import Str JS Lalamove LalamoveFacts RouteObservations.

Section Bounds.
Context `{Runtime} (env : Env).

Lemma sends_silent {A} (P : Request -> Prop) (n : nat) (m : M A) :
  (forall w, trace (snd (m w)) = trace w) -> sends P n m.
Proof.
  intros Hm w. exists []. rewrite app_nil_r.
  split; [apply Hm |]. split; [constructor | cbn; lia].
Qed.

Lemma sends_weaken {A} (P : Request -> Prop) (n n' : nat) (m : M A) :
  (n <= n')%nat -> sends P n m -> sends P n' m.
Proof.
  intros Hn Hm w. destruct (Hm w) as (l & E & F & L).
  exists l. repeat split; [exact E | exact F | lia].
Qed.

Lemma sends_bind {A B} (P : Request -> Prop) (n k : nat) (m : M A) (f : A -> M B) :
  sends P n m -> (forall a, sends P k (f a)) -> sends P (n + k) (bind m f).
Proof.
  intros Hm Hf w. unfold bind. destruct (Hm w) as (l1 & E1 & F1 & L1).
  destruct (m w) as [[a | e] w1]; cbn [snd] in E1.
  - destruct (Hf a w1) as (l2 & E2 & F2 & L2). exists (l1 ++ l2)%list.
    rewrite E2, E1, app_assoc. split; [reflexivity |].
    split; [apply Forall_app; split; assumption |].
    rewrite length_app. lia.
  - exists l1. repeat split; [exact E1 | exact F1 | lia].
Qed.

Lemma sends_try_catch {A} (P : Request -> Prop) (n k : nat) (m : M A) (h : exn -> M A) :
  sends P n m -> (forall e, sends P k (h e)) -> sends P (n + k) (try_catch m h).
Proof.
  intros Hm Hh w. unfold try_catch. destruct (Hm w) as (l1 & E1 & F1 & L1).
  destruct (m w) as [[a | e] w1]; cbn [snd] in E1.
  - exists l1. repeat split; [exact E1 | exact F1 | lia].
  - destruct (Hh e w1) as (l2 & E2 & F2 & L2). exists (l1 ++ l2)%list.
    rewrite E2, E1, app_assoc. split; [reflexivity |].
    split; [apply Forall_app; split; assumption |].
    rewrite length_app. lia.
Qed.

Lemma sends_proxyRequest (P : Request -> Prop) path payload market sandbox method :
  (forall secret apiKey t,
      env_var env "LALAMOVE_API_SECRET" = Some secret ->
      env_var env "LALAMOVE_API_KEY" = Some apiKey ->
      P (upstream_request path payload market sandbox method secret apiKey t)) ->
  sends P 1 (proxyRequest env path payload market sandbox method).
Proof.
  intros HP w.
  destruct (env_var env "LALAMOVE_API_SECRET") as [secret |] eqn:Hs.
  2:{ destruct (proxyRequest_missing env path payload market sandbox method w
                  (or_introl Hs)) as [k ->].
      exists []. rewrite app_nil_r. repeat split; [constructor | cbn; lia]. }
  destruct (env_var env "LALAMOVE_API_KEY") as [apiKey |] eqn:Hk.
  2:{ destruct (proxyRequest_missing env path payload market sandbox method w
                  (or_intror Hk)) as [k ->].
      exists []. rewrite app_nil_r. repeat split; [constructor | cbn; lia]. }
  rewrite (proxyRequest_eq env _ _ _ _ _ _ _ _ Hs Hk). cbv zeta.
  eexists [_]. split; [reflexivity |].
  split; [| cbn; lia]. constructor; [| constructor].
  apply HP; reflexivity.
Qed.

Lemma sends_handleQuote (P : Request -> Prop) body config :
  (forall payload secret apiKey t,
      env_var env "LALAMOVE_API_SECRET" = Some secret ->
      env_var env "LALAMOVE_API_KEY" = Some apiKey ->
      P (upstream_request "/quotations" payload (market config) (sandbox config)
                          "POST" secret apiKey t)) ->
  sends P 1 (handleQuote env body config).
Proof.
  intros HP. unfold handleQuote.
  destruct (_ || _ || _); [apply sends_silent; reflexivity |].
  apply (sends_bind P 1 0).
  - apply sends_proxyRequest. intros secret apiKey t. apply HP.
  - intros [e st | d]; [apply sends_silent; reflexivity |].
    apply (sends_bind P 0 0); [apply sends_silent; reflexivity |].
    intros dd. apply sends_silent. reflexivity.
Qed.

Lemma sends_submit_order (P : Request -> Prop) payload config :
  (forall secret apiKey t,
      env_var env "LALAMOVE_API_SECRET" = Some secret ->
      env_var env "LALAMOVE_API_KEY" = Some apiKey ->
      P (upstream_request "/orders" payload (market config) (sandbox config)
                          "POST" secret apiKey t)) ->
  sends P 1 (submit_order env payload config).
Proof.
  intros HP. unfold submit_order.
  apply (sends_bind P 1 0).
  - apply sends_proxyRequest. exact HP.
  - intros [e st | d]; [apply sends_silent; reflexivity |].
    apply (sends_bind P 0 0); [apply sends_silent; reflexivity |].
    intros dd. apply sends_silent. reflexivity.
Qed.

Lemma sends_resolve_stops (P : Request -> Prop) quotationId config :
  (forall secret apiKey t,
      env_var env "LALAMOVE_API_SECRET" = Some secret ->
      env_var env "LALAMOVE_API_KEY" = Some apiKey ->
      P (upstream_request ("/quotations/" +:+ quotationId) (VObj [])
                          (market config) (sandbox config) "GET" secret apiKey t)) ->
  sends P 1 (resolve_stops env quotationId config).
Proof.
  intros HP. unfold resolve_stops, fetch_quotation.
  apply (sends_try_catch P 1 0); [| intros e; apply sends_silent; reflexivity].
  apply (sends_bind P 1 0).
  - apply sends_proxyRequest. exact HP.
  - intros [e st | d]; [apply sends_silent; reflexivity |].
    apply (sends_bind P 0 0); [apply sends_silent; reflexivity |].
    intros now. apply sends_silent. reflexivity.
Qed.

Lemma sends_handleOrder (P : Request -> Prop) body config :
  (forall secret apiKey t,
      env_var env "LALAMOVE_API_SECRET" = Some secret ->
      env_var env "LALAMOVE_API_KEY" = Some apiKey ->
      P (upstream_request ("/quotations/" +:+ field_string body "quotationId")
                          (VObj []) (market config) (sandbox config) "GET"
                          secret apiKey t)) ->
  (forall payload secret apiKey t,
      env_var env "LALAMOVE_API_SECRET" = Some secret ->
      env_var env "LALAMOVE_API_KEY" = Some apiKey ->
      P (upstream_request "/orders" payload (market config) (sandbox config)
                          "POST" secret apiKey t)) ->
  sends P 2 (handleOrder env body config).
Proof.
  intros Hget Hpost. unfold handleOrder.
  destruct (_ || _ || _); [apply sends_silent; reflexivity |].
  apply (sends_bind P 1 1).
  - destruct (_ || _); [apply sends_resolve_stops; exact Hget |].
    apply sends_silent. reflexivity.
  - intros [r | [[[s r] q] u]]; [apply sends_silent; reflexivity |].
    apply sends_submit_order. intros secret apiKey t. apply Hpost.
Qed.

Lemma client_request_is_signed path payload market sandbox method secret apiKey t :
  env_var env "LALAMOVE_API_SECRET" = Some secret ->
  env_var env "LALAMOVE_API_KEY" = Some apiKey ->
  from_client env
    (upstream_request path payload market sandbox method secret apiKey t).
Proof.
  intros Hs Hk.
  exists path, payload, market, sandbox, method, secret, apiKey, t. auto.
Qed.

(** X3. Whatever the action and the body, one request to the route
    sends at most two requests upstream, and each of them is a request
    of the upstream client, signed with the secret and the key of the
    environment. *)
Theorem route_sends_at_most_two_signed_requests action raw w :
  exists l,
    trace (snd (POST env action raw w)) = (trace w ++ l)%list /\
    Forall (from_client env) l /\
    (length l <= 2)%nat.
Proof.
  revert w. change (sends (from_client env) 2 (POST env action raw)).
  unfold POST.
  destruct (_ && _); [apply sends_silent; reflexivity |].
  destruct (JSON_parse raw) as [body |]; [| apply sends_silent; reflexivity].
  destruct (buildConfig body) as [config |]; [| apply sends_silent; reflexivity].
  destruct (String.eqb action "quote").
  - apply (sends_weaken _ 1 2); [lia |]. apply sends_handleQuote.
    intros. apply client_request_is_signed; assumption.
  - apply sends_handleOrder; intros; apply client_request_is_signed; assumption.
Qed.

(** X4. The handlers speak only to the host their store configuration
    selects and under its market: the quote handler sends at most one
    request, a POST to /v3/quotations; the order handler sends at most
    two, each a GET without a body or a POST to /v3/orders, and the URL
    string of each begins with that host. *)
Theorem handlers_keep_to_configured_host body config :
  sends (quote_traffic config) 1 (handleQuote env body config) /\
  sends (order_traffic config) 2 (handleOrder env body config).
Proof.
  split.
  - apply sends_handleQuote. intros payload secret apiKey t _ _.
    unfold quote_traffic. cbn. repeat split. destruct (sandbox config); reflexivity.
  - apply sends_handleOrder.
    + intros secret apiKey t _ _. unfold order_traffic. split; [reflexivity |].
      split; [cbn; destruct (sandbox config); reflexivity |].
      left. cbn. split; reflexivity.
    + intros payload secret apiKey t _ _. unfold order_traffic. split; [reflexivity |].
      split; [cbn; destruct (sandbox config); reflexivity |].
      right. cbn. split; [reflexivity |]. destruct (sandbox config); reflexivity.
Qed.

(** The response of the order handler when the GET of the quotation did
    not return data. *)
Lemma handleOrder_fetch_failed body config w :
  order_fields_present body = true ->
  stops_supplied body = false ->
  (forall d, fst (fetch_quotation env (field_string body "quotationId") config w)
             <> Ok (PData d)) ->
  handleOrder env body config w
  = (Ok (match fst (fetch_quotation env (field_string body "quotationId") config w) with
         | Ok (PError e st) =>
             respond (error_body ("Failed to fetch quotation: " +:+ e))
                     (status_or_500 st)
         | _ => respond (error_body "Failed to fetch quotation for stop IDs") 500
         end),
     snd (fetch_quotation env (field_string body "quotationId") config w)).
Proof.
  unfold order_fields_present, stops_supplied, handleOrder. intros E S F.
  apply negb_true_iff in E. rewrite E.
  rewrite <- negb_andb, S. cbn [negb].
  unfold bind at 1. unfold resolve_stops, try_catch, bind at 1.
  destruct (fetch_quotation env (field_string body "quotationId") config w)
    as [[[e st | d] | e] w1]; cbn [fst snd] in *.
  - reflexivity.
  - exfalso. apply (F d). reflexivity.
  - reflexivity.
Qed.

(** X5. When the order handler has to fetch the quotation and the fetch
    does not return data, the handler does not throw and posts no order:
    an upstream error is answered with the upstream status and the text
    "Failed to fetch quotation: " followed by the upstream error, any
    exception of the fetch with status 500; the requests sent are at most
    the one GET. *)
Theorem quotation_failure_is_answered body config w :
  order_fields_present body = true ->
  stops_supplied body = false ->
  (forall d, fst (fetch_quotation env (field_string body "quotationId") config w)
             <> Ok (PData d)) ->
  exists r l,
    fst (handleOrder env body config w) = Ok r /\
    (r = respond (error_body "Failed to fetch quotation for stop IDs") 500 \/
     exists e st,
       fst (fetch_quotation env (field_string body "quotationId") config w)
       = Ok (PError e st) /\
       r = respond (error_body ("Failed to fetch quotation: " +:+ e))
                   (status_or_500 st)) /\
    trace (snd (handleOrder env body config w)) = (trace w ++ l)%list /\
    (length l <= 1)%nat /\
    Forall (fun p => req_method p = "GET") l.
Proof.
  intros V S F. rewrite (handleOrder_fetch_failed body config w V S F).
  assert (T : sends (fun p => req_method p = "GET") 1
                    (fetch_quotation env (field_string body "quotationId") config)).
  { apply sends_proxyRequest. intros. reflexivity. }
  destruct (T w) as (l & El & Fl & Ll).
  eexists. exists l. split; [reflexivity |].
  split; [| split; [exact El | split; [exact Ll | exact Fl]]].
  destruct (fst (fetch_quotation env (field_string body "quotationId") config w))
    as [[e st | d] | e].
  - right. exists e, st. split; reflexivity.
  - left. reflexivity.
  - left. reflexivity.
Qed.

(** X6. What the quote handler makes of the answer to its quotation
    request, for a request that passes its validation: an answer outside
    200-299 is passed on with its status and its body (a fixed text when
    the body is empty); a 2xx answer that is a JSON object yields 200 with
    the four fields read from its [data], a field that is absent staying
    [undefined]; a 2xx answer whose body is the JSON [null] makes the
    handler throw a TypeError, and one that is not JSON a SyntaxError. *)
Theorem quote_results body config secret apiKey w r :
  let deliveryAddress := field_string body "deliveryAddress" in
  let deliveryLat := to_number (prop body "deliveryLat") in
  let deliveryLng := to_number (prop body "deliveryLng") in
  is_empty deliveryAddress || PrimFloat.is_nan deliveryLat
  || PrimFloat.is_nan deliveryLng = false ->
  env_var env "LALAMOVE_API_SECRET" = Some secret ->
  env_var env "LALAMOVE_API_KEY" = Some apiKey ->
  upstream env (trace w)
    (upstream_request "/quotations"
       (quotePayload config deliveryAddress deliveryLat deliveryLng)
       (market config) (sandbox config) "POST" secret apiKey
       (clock env (ticks w)))
  = Responded r ->
  let out := fst (handleQuote env body config w) in
  (res_ok r = false ->
   out = Ok (respond
               (error_body (if is_empty (res_text r) then "Lalamove upstream error"
                            else res_text r))
               (status_or_500 (res_status r)))) /\
  (res_ok r = true ->
   forall fields, JSON_parse (res_text r) = Some (VObj fields) ->
   let data := prop (VObj fields) "data" in
   out = Ok (respond
               (VObj [ ("quotationId", prop data "quotationId");
                       ("price", prop (prop data "priceBreakdown") "total");
                       ("currency", prop (prop data "priceBreakdown") "currency");
                       ("expiresAt", prop data "expiresAt") ])
               200)) /\
  (res_ok r = true -> JSON_parse (res_text r) = Some VNull -> out = Throw TypeError) /\
  (res_ok r = true -> JSON_parse (res_text r) = None -> out = Throw SyntaxError).
Proof.
  intros deliveryAddress deliveryLat deliveryLng V Hs Hk Hr out. subst out.
  unfold handleQuote. fold deliveryAddress deliveryLat deliveryLng. rewrite V.
  unfold bind.
  rewrite (proxyRequest_eq env _ _ _ _ _ _ _ _ Hs Hk). cbv zeta.
  rewrite Hr. unfold proxy_outcome.
  repeat split.
  - intros ->. reflexivity.
  - intros -> fields ->. reflexivity.
  - intros -> ->. reflexivity.
  - intros -> ->. reflexivity.
Qed.

(** X7. A store configuration that [buildConfig] accepts has all five
    texts non-empty and both coordinates different from NaN, and holds
    exactly the converted fields of the body. *)
Theorem buildConfig_accepts_complete_configurations body config :
  buildConfig body = Some config ->
  is_empty (market config) = false /\
  is_empty (serviceType config) = false /\
  is_empty (storeName config) = false /\
  is_empty (storePhone config) = false /\
  is_empty (storeAddress config) = false /\
  PrimFloat.is_nan (storeLatitude config) = false /\
  PrimFloat.is_nan (storeLongitude config) = false /\
  config = {| market := field_string body "market";
              serviceType := field_string body "serviceType";
              sandbox := truthy (prop body "sandbox");
              storeName := field_string body "storeName";
              storePhone := field_string body "storePhone";
              storeAddress := field_string body "storeAddress";
              storeLatitude := to_number (prop body "storeLatitude");
              storeLongitude := to_number (prop body "storeLongitude") |}.
Proof.
  unfold buildConfig. destruct (negb (truthy body)); [discriminate |].
  destruct (is_empty (field_string body "market")) eqn:E1; [discriminate |].
  destruct (is_empty (field_string body "serviceType")) eqn:E2; [discriminate |].
  destruct (is_empty (field_string body "storeName")) eqn:E3; [discriminate |].
  destruct (is_empty (field_string body "storePhone")) eqn:E4; [discriminate |].
  destruct (is_empty (field_string body "storeAddress")) eqn:E5; [discriminate |].
  destruct (PrimFloat.is_nan (to_number (prop body "storeLatitude"))) eqn:E6;
    [discriminate |].
  destruct (PrimFloat.is_nan (to_number (prop body "storeLongitude"))) eqn:E7;
    [discriminate |].
  cbn. intros [= <-]. cbn. repeat split; assumption.
Qed.

(** X8. The route touches the world (a request upstream, a clock
    reading) only for a supported action whose body parses and yields a
    store configuration. *)
Theorem route_acts_only_on_valid_requests action raw w :
  snd (POST env action raw w) <> w ->
  (action = "quote" \/ action = "order") /\
  exists body config,
    JSON_parse raw = Some body /\ buildConfig body = Some config.
Proof.
  unfold POST.
  destruct (String.eqb_spec action "quote") as [Hq | Hq].
  - cbn [negb andb].
    destruct (JSON_parse raw) as [body |] eqn:Ep; [| intros N; exfalso; apply N; reflexivity].
    destruct (buildConfig body) as [config |] eqn:Ec;
      [| intros N; exfalso; apply N; reflexivity].
    intros _. split; [left; exact Hq |]. exists body, config. split; [reflexivity | exact Ec].
  - destruct (String.eqb_spec action "order") as [Ho | Ho].
    + cbn [negb andb].
      destruct (JSON_parse raw) as [body |] eqn:Ep; [| intros N; exfalso; apply N; reflexivity].
      destruct (buildConfig body) as [config |] eqn:Ec;
        [| intros N; exfalso; apply N; reflexivity].
      intros _. split; [right; exact Ho |]. exists body, config. split; [reflexivity | exact Ec].
    + cbn [negb andb]. intros N. exfalso. apply N. reflexivity.
Qed.

End Bounds.

(** X9. For every market code that is not the name of a property of
    [Object.prototype], the language is a non-empty string: the entry of
    the table when the market is listed, and "en_US" otherwise. *)
Theorem language_is_a_tag market :
  lookup_field market Object_prototype = None ->
  exists l,
    getLanguageForMarket market = VStr l /\
    is_empty l = false /\
    (lookup_field market language_map = Some (VStr l) \/
     (lookup_field market language_map = None /\ l = "en_US")).
Proof.
  intros Hp. unfold getLanguageForMarket, literal_get. rewrite Hp.
  unfold language_map. cbn [lookup_field].
  repeat (destruct (String.eqb market _);
          [eexists; split; [reflexivity |]; split; [reflexivity |];
           left; reflexivity |]).
  exists "en_US". split; [reflexivity |]. split; [reflexivity |].
  right. split; reflexivity.
Qed.

End RouteMore.

(* ===================================================================== *)
(** * Further scenarios of the delivery route *)
(* ===================================================================== *)

Module RouteScenarios.
Import Str JS Lalamove LalamoveFacts RouteObservations RouteMore Scenario.

Section First.
#[local] Existing Instance Scenario.runtime.

Ltac run := vm_compute; first [reflexivity | discriminate | intros ?; discriminate].

(** X5 at the quotation [q-html], whose GET is answered with a text that
    is not JSON. *)
Lemma quotation_failure_is_answered_witness :
  exists r l,
    fst (handleOrder env (order_body "q-html") store w0) = Ok r /\
    (r = respond (error_body "Failed to fetch quotation for stop IDs") 500 \/
     exists e st,
       fst (fetch_quotation env (field_string (order_body "q-html") "quotationId")
                            store w0)
       = Ok (PError e st) /\
       r = respond (error_body ("Failed to fetch quotation: " +:+ e))
                   (status_or_500 st)) /\
    trace (snd (handleOrder env (order_body "q-html") store w0))
    = (trace w0 ++ l)%list /\
    (length l <= 1)%nat /\
    Forall (fun p => req_method p = "GET") l.
Proof.
  refine (quotation_failure_is_answered env (order_body "q-html") store w0 _ _ _);
    run.
Defined.

(** X6 at a quotation request that the upstream answers with 201 and a
    quotation. *)
Lemma quote_results_witness :
  let body := quote_body "Glorietta 4, Makati, Philippines" 14.5%float in
  let r := {| res_status := 201; res_text := stringify quote_created |} in
  let out := fst (handleQuote env body store w0) in
  (res_ok r = false ->
   out = Ok (respond
               (error_body (if is_empty (res_text r) then "Lalamove upstream error"
                            else res_text r))
               (status_or_500 (res_status r)))) /\
  (res_ok r = true ->
   forall fields, JSON_parse (res_text r) = Some (VObj fields) ->
   let data := prop (VObj fields) "data" in
   out = Ok (respond
               (VObj [ ("quotationId", prop data "quotationId");
                       ("price", prop (prop data "priceBreakdown") "total");
                       ("currency", prop (prop data "priceBreakdown") "currency");
                       ("expiresAt", prop data "expiresAt") ])
               200)) /\
  (res_ok r = true -> JSON_parse (res_text r) = Some VNull -> out = Throw TypeError) /\
  (res_ok r = true -> JSON_parse (res_text r) = None -> out = Throw SyntaxError).
Proof.
  refine (quote_results env (quote_body "Glorietta 4, Makati, Philippines" 14.5%float)
            store "sk_test" "pk_test" w0
            {| res_status := 201; res_text := stringify quote_created |} _ _ _ _);
    run.
Defined.

(** X7 at the body of an order request of the storefront. *)
Lemma buildConfig_accepts_complete_configurations_witness :
  is_empty (market store) = false /\
  is_empty (serviceType store) = false /\
  is_empty (storeName store) = false /\
  is_empty (storePhone store) = false /\
  is_empty (storeAddress store) = false /\
  PrimFloat.is_nan (storeLatitude store) = false /\
  PrimFloat.is_nan (storeLongitude store) = false /\
  store = {| market := field_string Scenario2.full_order_body "market";
             serviceType := field_string Scenario2.full_order_body "serviceType";
             sandbox := truthy (prop Scenario2.full_order_body "sandbox");
             storeName := field_string Scenario2.full_order_body "storeName";
             storePhone := field_string Scenario2.full_order_body "storePhone";
             storeAddress := field_string Scenario2.full_order_body "storeAddress";
             storeLatitude := to_number (prop Scenario2.full_order_body "storeLatitude");
             storeLongitude := to_number (prop Scenario2.full_order_body "storeLongitude") |}.
Proof.
  refine (buildConfig_accepts_complete_configurations Scenario2.full_order_body store _);
    run.
Defined.

(** X9 at the market TH. *)
Lemma language_is_a_tag_witness :
  exists l,
    getLanguageForMarket "TH" = VStr l /\
    is_empty l = false /\
    (lookup_field "TH" language_map = Some (VStr l) \/
     (lookup_field "TH" language_map = None /\ l = "en_US")).
Proof. refine (language_is_a_tag "TH" _); run. Defined.

End First.

Section Second.
#[local] Existing Instance Scenario2.runtime.

(** X8 at an order request of the storefront, given as text. *)
Lemma route_acts_only_on_valid_requests_witness :
  ("order" = "quote" \/ "order" = "order") /\
  exists body config,
    JSON_parse (stringify Scenario2.full_order_body) = Some body /\
    buildConfig body = Some config.
Proof.
  refine (route_acts_only_on_valid_requests env "order"
            (stringify Scenario2.full_order_body) w0 _).
  vm_compute. discriminate.
Defined.

End Second.

End RouteScenarios.

(* ===================================================================== *)
(** * Further facts: the orders routes *)
(* ===================================================================== *)

Module OrdersMore.
Import Str Phone PhoneFacts PhoneMore Orders OrdersFacts OrdersObservations.

(** The two ways a request to the single-order route ends. *)
Lemma PATCH_cases k b db :
  (exists code, (code = 400 \/ code = 500) /\ PATCH k b db = refuse code db)
  \/
  (exists o,
     is_empty k = false /\ db !! k = Some o /\
     PATCH k b db
     = {| http_status := 200;
          returned := Some (apply_patch b o);
          table := <[k := apply_patch b o]> db;
          started :=
            if statusChangingToConfirmed (p_status b) (Some o)
            then [ {| task_id := k; task_row := apply_patch b o |} ]
            else [] |}).
Proof.
  unfold PATCH.
  destruct (is_empty k); [left; exists 400; auto |].
  destruct (match p_status b with Some s => negb (valid_status s) | None => false end);
    [left; exists 400; auto |].
  destruct (no_fields b); [left; exists 400; auto |].
  destruct (db !! k) as [o |] eqn:Ho; [| left; exists 500; auto].
  right. exists o. auto.
Qed.

Lemma refuse_not_200 code db :
  code = 400 \/ code = 500 -> http_status (refuse code db) <> 200.
Proof. intros [-> | ->]; discriminate. Qed.

(** The table after a bulk update, key by key. *)
Lemma bulk_lookup (s : string) (ids : list string) (db : Table) (k : string) :
  foldr (fun i m => alter (set_status s) i m) db ids !! k
  = if decide (k ∈ ids) then set_status s <$> db !! k else db !! k.
Proof.
  induction ids as [| a r IH]; cbn [foldr].
  - rewrite decide_False; [reflexivity | apply not_elem_of_nil].
  - rewrite lookup_alter. destruct (decide (a = k)) as [-> | Hne].
    + rewrite IH.
      rewrite (decide_True (P := k ∈ k :: r)) by apply list_elem_of_here.
      destruct (decide (k ∈ r)); [| reflexivity].
      destruct (db !! k); reflexivity.
    + rewrite IH. destruct (decide (k ∈ r)) as [Hin | Hnin].
      * rewrite (decide_True (P := k ∈ a :: r))
          by (apply list_elem_of_further; exact Hin).
        reflexivity.
      * rewrite (decide_False (P := k ∈ a :: r)); [reflexivity |].
        intros Hin. apply elem_of_cons in Hin as [-> | Hin]; contradiction.
Qed.

(** The two ways a request to the bulk route ends. *)
Lemma PATCH_bulk_cases ids s db :
  PATCH_bulk ids s db = refuse 400 db
  \/
  (ids <> [] /\ valid_status s = true /\
   PATCH_bulk ids s db
   = {| http_status := 200; returned := None;
        table := foldr (fun i m => alter (set_status s) i m) db ids;
        started := [] |}).
Proof.
  unfold PATCH_bulk. destruct ids as [| a r]; [left; reflexivity |].
  destruct (is_empty s); [left; reflexivity |].
  destruct (valid_status s); [| left; reflexivity].
  right. split; [discriminate | split; reflexivity].
Qed.

(** X10. A request to the single-order route changes no row but the one
    it names, and a request it refuses changes nothing at all: the table
    is as it was, no row is returned and no job is started. *)
Theorem single_update_touches_one_row k b db :
  (forall k', k' <> k -> table (PATCH k b db) !! k' = db !! k') /\
  (http_status (PATCH k b db) = 200 \/
   ((http_status (PATCH k b db) = 400 \/ http_status (PATCH k b db) = 500) /\
    table (PATCH k b db) = db /\
    returned (PATCH k b db) = None /\
    started (PATCH k b db) = [])) /\
  (forall k', is_Some (table (PATCH k b db) !! k') <-> is_Some (db !! k')).
Proof.
  destruct (PATCH_cases k b db) as [(code & Hc & ->) | (o & Hk & Ho & ->)];
    cbn [refuse table http_status returned started].
  - split; [reflexivity |]. split; [| reflexivity].
    right. split; [exact Hc | auto].
  - split; [| split; [left; reflexivity |]].
    + intros k' Hne. apply lookup_insert_ne. congruence.
    + intros k'. rewrite lookup_insert. destruct (decide (k = k')) as [<- |].
      * rewrite Ho. split; intros _; eauto.
      * reflexivity.
Qed.

(** X11. The bulk route, key by key: when it answers 200 every row whose
    identifier is listed has the new status and is otherwise as before,
    every other row is untouched and no row is created; when it refuses,
    nothing changes. *)
Theorem bulk_update_row_by_row ids s db k :
  table (PATCH_bulk ids s db) !! k
  = if decide (http_status (PATCH_bulk ids s db) = 200 /\ k ∈ ids)
    then set_status s <$> db !! k
    else db !! k.
Proof.
  destruct (PATCH_bulk_cases ids s db) as [-> | (_ & _ & ->)];
    cbn [refuse table http_status].
  - rewrite decide_False; [reflexivity |]. intros [? _]; discriminate.
  - rewrite bulk_lookup. destruct (decide (k ∈ ids)) as [Hin | Hnin].
    + rewrite decide_True by (split; [reflexivity | exact Hin]). reflexivity.
    + rewrite decide_False; [reflexivity |]. intros [_ ?]; contradiction.
Qed.


Section Jobs.
Context {SiteSettings : Type} (env : Env SiteSettings).

Lemma fmap_alter_kept {A : Type} (f : Order -> A) (g : Order -> Order)
      (k : string) (m : Table) (k' : string) :
  (forall o, f (g o) = f o) ->
  f <$> (alter g k m !! k') = f <$> (m !! k').
Proof.
  intros Hg. rewrite lookup_alter. destruct (decide (k = k')) as [<- |]; [| reflexivity].
  destruct (m !! k); cbn; [rewrite Hg |]; reflexivity.
Qed.

(** A job leaves alone every column its update does not name. *)
Lemma run_task_keeps {A : Type} (f : Order -> A) (t : Task) (sv : Server) (k' : string) :
  (forall x y z o,
     f (apply_patch {| p_status := None; p_lalamove_order_id := Some (Some x);
                       p_lalamove_status := Some (Some y);
                       p_lalamove_tracking_url := Some (Some z) |} o) = f o) ->
  f <$> (orders (run_task env t sv) !! k') = f <$> (orders sv !! k').
Proof.
  intros Hf. unfold run_task.
  destruct (site_settings env) as [st |]; [| reflexivity].
  destruct (buildLalamoveConfig env st) as [cfg |]; [| reflexivity].
  destruct (lalamove_quotation_id (task_row t)) as [q |]; [| reflexivity].
  destruct (is_empty q); [reflexivity |].
  destruct (handler_call env _ _ _ _ _) as [call |]; [| reflexivity].
  destruct (order_handler env call) as [res |]; [| reflexivity].
  cbn [orders]. apply fmap_alter_kept. intros o. apply Hf.
Qed.


Lemma jobs_keep {A : Type} (f : Order -> A) (ts : list Task) (sv : Server) (k' : string) :
  (forall x y z o,
     f (apply_patch {| p_status := None; p_lalamove_order_id := Some (Some x);
                       p_lalamove_status := Some (Some y);
                       p_lalamove_tracking_url := Some (Some z) |} o) = f o) ->
  f <$> (orders (foldl (fun s t => run_task env t s) sv ts) !! k')
  = f <$> (orders sv !! k').
Proof.
  intros Hf. revert sv. induction ts as [| t r IH]; intros sv; cbn [foldl].
  - reflexivity.
  - rewrite IH. apply run_task_keeps. exact Hf.
Qed.

Lemma settle_keeps {A : Type} (f : Order -> A) (out : Outcome) (sv : Server) (k' : string) :
  (forall x y z o,
     f (apply_patch {| p_status := None; p_lalamove_order_id := Some (Some x);
                       p_lalamove_status := Some (Some y);
                       p_lalamove_tracking_url := Some (Some z) |} o) = f o) ->
  f <$> (orders (settle env out sv) !! k') = f <$> (table out !! k').
Proof. intros Hf. unfold settle. rewrite jobs_keep by exact Hf. reflexivity. Qed.

(** X12. Neither route nor any job they start creates or deletes a row or
    writes a column the order was placed with: after a request to either
    route and the jobs it started, every row of the table carries the
    identifier, order number, customer name, contact number, service type
    and quotation identifier it carried before. *)
Theorem placed_columns_are_never_written k b ids s db sv k' :
  placed <$> (orders (settle env (PATCH k b db) sv) !! k') = placed <$> (db !! k') /\
  placed <$> (orders (settle env (PATCH_bulk ids s db) sv) !! k') = placed <$> (db !! k').
Proof.
  split; (rewrite settle_keeps by reflexivity).
  - destruct (PATCH_cases k b db) as [(code & _ & ->) | (o & _ & Ho & ->)];
      cbn [refuse table]; [reflexivity |].
    rewrite lookup_insert. destruct (decide (k = k')) as [<- |]; [| reflexivity].
    rewrite Ho. reflexivity.
  - destruct (PATCH_bulk_cases ids s db) as [-> | (_ & _ & ->)];
      cbn [refuse table]; [reflexivity |].
    rewrite bulk_lookup. destruct (decide (k' ∈ ids)); [| reflexivity].
    destruct (db !! k'); reflexivity.
Qed.

(** X13. A job changes no status: whatever a request started, once its
    jobs have run every row has the status the request left it with. *)
Theorem jobs_change_no_status out sv k' :
  status <$> (orders (settle env out sv) !! k') = status <$> (table out !! k').
Proof. apply settle_keeps. reflexivity. Qed.

(** The trigger is closed for an order whose status is "confirmed". *)
Lemma confirmed_guard k b' (db' : Table) :
  status <$> (db' !! k) = Some "confirmed" ->
  started (PATCH k b' db') = [].
Proof.
  intros Hst.
  destruct (PATCH_cases k b' db') as [(code & _ & ->) | (o'' & _ & Ho'' & ->)];
    [reflexivity |].
  cbn [started]. rewrite Ho'' in Hst. cbn in Hst. injection Hst as Hst.
  unfold statusChangingToConfirmed. destruct (p_status b'); [| reflexivity].
  rewrite Hst. cbn. rewrite andb_false_r. reflexivity.
Qed.

(** A request that sets no other status leaves a confirmed order
    confirmed. *)
Lemma confirmed_kept k b (db' : Table) :
  keeps_confirmed b = true ->
  status <$> (db' !! k) = Some "confirmed" ->
  status <$> (table (PATCH k b db') !! k) = Some "confirmed".
Proof.
  intros Hb Hst.
  destruct (PATCH_cases k b db') as [(code & _ & ->) | (o & _ & Ho & ->)];
    cbn [refuse table]; [exact Hst |].
  rewrite lookup_insert_eq. cbn. rewrite Ho in Hst. cbn in Hst. injection Hst as Hst.
  unfold keeps_confirmed in Hb. destruct (p_status b) as [s |].
  - apply String.eqb_eq in Hb. rewrite Hb. reflexivity.
  - rewrite Hst. reflexivity.
Qed.

Lemma serve_all_confirmed k bs sv :
  status <$> (orders sv !! k) = Some "confirmed" ->
  forallb keeps_confirmed bs = true ->
  Forall (fun ts => ts = []) (serve_all env k bs sv).
Proof.
  revert sv. induction bs as [| b r IH]; intros sv Hst Hbs; cbn [serve_all].
  - constructor.
  - cbn [forallb] in Hbs. apply andb_true_iff in Hbs as [Hb Hr].
    constructor; [apply confirmed_guard; exact Hst |].
    apply IH; [| exact Hr].
    rewrite (settle_keeps status _ sv k (fun _ _ _ _ => eq_refl)).
    apply confirmed_kept; assumption.
Qed.

(** X14. While an order stays confirmed, no request to the single-order
    route starts a job for it.  When the route has confirmed an order
    (answer 200), the next request for that order, whatever it asks,
    starts no job, whether it arrives before the job of the confirmation
    has run or after it, and whether or not that job succeeded; and in
    any sequence of later requests for the order of which none sets a
    status other than "confirmed", each served after the jobs of the one
    before, no request starts a job.  (A request that sets another
    status takes the order out of this case: the trigger reads the row
    as it then is.) *)
Theorem confirmed_order_starts_no_second_job k b b' bs db sv :
  p_status b = Some "confirmed" ->
  http_status (PATCH k b db) = 200 ->
  forallb keeps_confirmed bs = true ->
  started (PATCH k b' (table (PATCH k b db))) = [] /\
  started (PATCH k b' (orders (settle env (PATCH k b db) sv))) = [] /\
  Forall (fun ts => ts = []) (serve_all env k bs (settle env (PATCH k b db) sv)).
Proof.
  intros Hb H200 Hbs.
  pose proof (settle_keeps status (PATCH k b db) sv k (fun _ _ _ _ => eq_refl)) as Hst.
  destruct (PATCH_cases k b db) as [(code & Hc & E) | (o & Hk & Ho & E)].
  { rewrite E in H200. exfalso. exact (refuse_not_200 code db Hc H200). }
  assert (Htab : status <$> (table (PATCH k b db) !! k) = Some "confirmed").
  { rewrite E. cbn [table]. rewrite lookup_insert_eq. cbn. rewrite Hb. reflexivity. }
  rewrite Htab in Hst.
  split; [apply confirmed_guard; exact Htab |].
  split; [apply confirmed_guard; exact Hst |].
  apply serve_all_confirmed; assumption.
Qed.

(** What the job passes on as the recipient's phone: the contact number
    normalised once. *)
Lemma normalized_twice c :
  normalizePhone (match normalizePhoneNumber (Some c) with
                  | Some n => n
                  | None => c
                  end)
  = normalizePhone c.
Proof.
  rewrite normalizePhoneNumber_digits.
  destruct (is_empty (strip_non_digits c)) eqn:Hd; [reflexivity |].
  rewrite <- (normalizePhone_digits c Hd). apply normalizePhone_idem.
Qed.

(** X15. What a job asks of the order handler.  A job makes no call, or
    exactly one: for the quotation of its row, which is not empty, in the
    name of the customer, under the identifier of the row, with the
    contact number normalised as [normalizePhone] does it (the two
    normalisations the number passes through amount to one) and with the
    store configuration, its phone normalised too. *)
Theorem job_call_is_normalized t sv :
  run_task env t sv = sv \/
  exists q settings config,
    site_settings env = Some settings /\
    buildLalamoveConfig env settings = Some config /\
    lalamove_quotation_id (task_row t) = Some q /\
    is_empty q = false /\
    calls (run_task env t sv)
    = (calls sv
       ++ [ {| c_quotationId := q;
               c_recipientName := customer_name (task_row t);
               c_recipientPhone := normalizePhone (contact_number (task_row t));
               c_config := sent_config config;
               c_orderId := id (task_row t) |} ])%list.
Proof.
  unfold run_task.
  destruct (site_settings env) as [st |]; [| left; reflexivity].
  destruct (buildLalamoveConfig env st) as [cfg |] eqn:Hc; [| left; reflexivity].
  destruct (lalamove_quotation_id (task_row t)) as [q |]; [| left; reflexivity].
  destruct (is_empty q) eqn:Hq; [left; reflexivity |].
  unfold handler_call.
  destruct (present (SUPABASE_ANON_KEY env)); [| left; reflexivity].
  right. exists q, st, cfg. repeat (split; [reflexivity || assumption |]).
  rewrite normalized_twice. fold (sent_config cfg).
  destruct (order_handler env _); reflexivity.
Qed.

End Jobs.

(** A single-order request that sets the status, as an [alter]. *)
Lemma single_status_update k s db :
  k <> "" ->
  table (PATCH k (status_only s) db)
  = if valid_status s then alter (set_status s) k db else db.
Proof.
  intros Hk. unfold PATCH.
  assert (Ek : is_empty k = false) by (destruct k; [contradiction | reflexivity]).
  rewrite Ek. cbn [p_status status_only].
  destruct (valid_status s); cbn [negb]; [| reflexivity].
  cbn [no_fields status_only p_status p_lalamove_order_id p_lalamove_status
       p_lalamove_tracking_url].
  apply map_eq. intros j.
  rewrite lookup_alter.
  destruct (db !! k) as [o |] eqn:Ho; cbn [refuse table].
  - rewrite lookup_insert. destruct (decide (k = j)) as [<- |]; reflexivity.
  - destruct (decide (k = j)) as [<- |]; [| reflexivity]. rewrite Ho. reflexivity.
Qed.

(** X16. On the table, the bulk route does what the single-order route
    does when it is asked for each listed order in turn (last first) to
    set the status; what the bulk route leaves out is the jobs. *)
Theorem bulk_is_iterated_single ids s db :
  "" ∉ ids ->
  table (PATCH_bulk ids s db)
  = foldr (fun k m => table (PATCH k (status_only s) m)) db ids /\
  started (PATCH_bulk ids s db) = [].
Proof.
  intros Hne. split; [| apply bulk_starts_nothing].
  assert (Hfold : foldr (fun k m => table (PATCH k (status_only s) m)) db ids
                  = if valid_status s
                    then foldr (fun i m => alter (set_status s) i m) db ids
                    else db).
  { induction ids as [| a r IH]; cbn [foldr].
    - destruct (valid_status s); reflexivity.
    - rewrite single_status_update.
      + rewrite IH.
        * destruct (valid_status s); reflexivity.
        * intros Hin. apply Hne. apply list_elem_of_further. exact Hin.
      + intros ->. apply Hne. apply list_elem_of_here. }
  rewrite Hfold.
  destruct (PATCH_bulk_cases ids s db) as [E | (_ & Hv & ->)].
  - rewrite E. cbn [refuse table].
    destruct (valid_status s) eqn:Hv; [| reflexivity].
    unfold PATCH_bulk in E. destruct ids as [| a r]; [reflexivity |].
    destruct (is_empty s) eqn:Es.
    { destruct s; [discriminate | discriminate]. }
    rewrite Hv in E. discriminate.
  - rewrite Hv. reflexivity.
Qed.

(** X17. The bulk route looks at which orders are listed, not at how: two
    lists with the same members get the same answer and the same table,
    and asking again, with either list, changes nothing. *)
Theorem bulk_depends_on_listed_set ids ids' s db :
  (forall k, k ∈ ids <-> k ∈ ids') ->
  PATCH_bulk ids s db = PATCH_bulk ids' s db /\
  table (PATCH_bulk ids' s (table (PATCH_bulk ids s db)))
  = table (PATCH_bulk ids s db).
Proof.
  intros Hset.
  assert (Hnil : ids = [] <-> ids' = []).
  { split; intros ->.
    - destruct ids' as [| a r]; [reflexivity |].
      exfalso. apply (not_elem_of_nil a). apply Hset. apply list_elem_of_here.
    - destruct ids as [| a r]; [reflexivity |].
      exfalso. apply (not_elem_of_nil a). apply Hset. apply list_elem_of_here. }
  assert (Htab : forall m : Table,
            foldr (fun i m => alter (set_status s) i m) m ids
            = foldr (fun i m => alter (set_status s) i m) m ids').
  { intros m. apply map_eq. intros j. rewrite !bulk_lookup.
    destruct (decide (j ∈ ids)) as [Hin | Hnin].
    - rewrite decide_True by (apply Hset; exact Hin). reflexivity.
    - rewrite decide_False; [reflexivity |]. intros Hin. apply Hnin, Hset, Hin. }
  assert (Heq : PATCH_bulk ids s db = PATCH_bulk ids' s db).
  { unfold PATCH_bulk. destruct ids as [| a r].
    - rewrite (proj1 Hnil eq_refl). reflexivity.
    - destruct ids' as [| a' r'].
      + pose proof (proj2 Hnil eq_refl) as E. discriminate.
      + rewrite Htab. reflexivity. }
  split; [exact Heq |].
  destruct (PATCH_bulk_cases ids s db) as [E | (Hn & Hv & E)].
  - rewrite E. cbn [refuse table]. rewrite <- Heq, E. reflexivity.
  - rewrite E. cbn [table].
    destruct (PATCH_bulk_cases ids' s
                (foldr (fun i m => alter (set_status s) i m) db ids))
      as [-> | (_ & _ & ->)]; cbn [refuse table]; [reflexivity |].
    rewrite <- Htab. apply map_eq. intros j. rewrite !bulk_lookup.
    destruct (decide (j ∈ ids)); [| reflexivity].
    destruct (db !! j); reflexivity.
Qed.


(** X14 at the order [o1]: confirmed, then confirmed again and given a
    courier status. *)
Lemma confirmed_order_starts_no_second_job_witness :
  let first := PATCH "o1" OrdersScenario.confirm OrdersScenario.db0 in
  let track := {| p_status := None; p_lalamove_order_id := None;
                  p_lalamove_status := Some (Some "PICKED_UP");
                  p_lalamove_tracking_url := None |} in
  started (PATCH "o1" OrdersScenario.confirm (table first)) = [] /\
  started (PATCH "o1" OrdersScenario.confirm
                 (orders (settle OrdersScenario.env first OrdersScenario.server0))) = [] /\
  Forall (fun ts => ts = [])
         (serve_all OrdersScenario.env "o1" [OrdersScenario.confirm; track]
                    (settle OrdersScenario.env first OrdersScenario.server0)).
Proof.
  apply (confirmed_order_starts_no_second_job OrdersScenario.env "o1"
           OrdersScenario.confirm OrdersScenario.confirm
           [OrdersScenario.confirm;
            {| p_status := None; p_lalamove_order_id := None;
               p_lalamove_status := Some (Some "PICKED_UP");
               p_lalamove_tracking_url := None |}]
           OrdersScenario.db0 OrdersScenario.server0).
  - reflexivity.
  - unfold PATCH, OrdersScenario.db0. rewrite lookup_singleton_eq. reflexivity.
  - reflexivity.
Defined.

(** X16 at the table [db0], the order [o1] listed twice. *)
Lemma bulk_is_iterated_single_witness :
  table (PATCH_bulk ["o1"; "o1"] "confirmed" OrdersScenario.db0)
  = foldr (fun k m => table (PATCH k (status_only "confirmed") m))
          OrdersScenario.db0 ["o1"; "o1"] /\
  started (PATCH_bulk ["o1"; "o1"] "confirmed" OrdersScenario.db0) = [].
Proof.
  apply (bulk_is_iterated_single ["o1"; "o1"] "confirmed" OrdersScenario.db0).
  intros Hin. repeat (apply elem_of_cons in Hin as [Hin | Hin]; [discriminate |]).
  exact (not_elem_of_nil _ Hin).
Defined.

(** X17 for a list that names [o1] twice and one that names it once. *)
Lemma bulk_depends_on_listed_set_witness :
  PATCH_bulk ["o1"; "o1"] "ready" OrdersScenario.db0
  = PATCH_bulk ["o1"] "ready" OrdersScenario.db0 /\
  table (PATCH_bulk ["o1"] "ready"
                    (table (PATCH_bulk ["o1"; "o1"] "ready" OrdersScenario.db0)))
  = table (PATCH_bulk ["o1"; "o1"] "ready" OrdersScenario.db0).
Proof.
  apply (bulk_depends_on_listed_set ["o1"; "o1"] ["o1"] "ready" OrdersScenario.db0).
  intros k. split; intros Hin.
  - apply elem_of_cons in Hin as [-> | Hin]; [apply list_elem_of_here | exact Hin].
  - apply list_elem_of_further. exact Hin.
Defined.


End OrdersMore.

(* ===================================================================== *)
(** * From the background job to the delivery route *)
(* ===================================================================== *)

Module PipelineFacts.
Import Str StrFacts Phone PhoneFacts PhoneMore JS Lalamove Orders OrdersObservations.

(** [normalizePhone] empties no text and fills none. *)
Lemma normalizePhone_is_empty x : is_empty (normalizePhone x) = is_empty x.
Proof.
  destruct (is_empty (strip_non_digits x)) eqn:Hd.
  - assert (E : normalizePhone x = x).
    { unfold normalizePhone. rewrite Hd. destruct (is_empty x); reflexivity. }
    rewrite E. reflexivity.
  - rewrite (normalizePhone_digits x Hd).
    destruct (to_e164_digits _ (strip_all_digits x) Hd) as (d' & -> & _ & _).
    destruct x; [discriminate | reflexivity].
Qed.

Section Accepted.
Context `{Runtime} {SiteSettings : Type} (env : JS.Env) (oenv : Orders.Env SiteSettings).

(** [String(s || '')] for a string [s]. *)
Lemma text_or_empty s : to_string (VStr s ||| VStr "") = s.
Proof. unfold or_else. cbn [truthy]. destruct s; reflexivity. Qed.

(** X19. What the job posts, the delivery route accepts.  Take the call
    [createLalamoveOrder] makes for a quotation, a recipient and a store
    configuration, none of their texts empty and no coordinate NaN, and
    let its body survive serialisation.  Served by the delivery route as
    the action [order], the body yields the configuration that was sent,
    passes the check of the order fields, and supplies no stop
    identifiers: the order handler runs, and it starts by fetching the
    quotation. *)
Theorem job_request_is_accepted
        (quotationId recipientName recipientPhone : string)
        (config : DeliveryStoreConfig) (orderId : string) (call : HandlerCall)
        (w : World) :
  handler_call oenv quotationId recipientName recipientPhone config orderId
  = Some call ->
  is_empty quotationId = false ->
  is_empty recipientName = false ->
  is_empty recipientPhone = false ->
  complete config = true ->
  JSON_parse (JSON_stringify (call_body call)) = Some (call_body call) ->
  POST env "order" (JSON_stringify (call_body call)) w
  = handleOrder env (call_body call) (sent_config config) w /\
  order_fields_present (call_body call) = true /\
  stops_supplied (call_body call) = false.
Proof.
  intros Hcall Hq Hn Hp Hc Hjson.
  unfold handler_call in Hcall.
  destruct (present (SUPABASE_ANON_KEY oenv)); [| discriminate].
  injection Hcall as <-. fold (sent_config config) in *.
  unfold complete in Hc. apply negb_true_iff in Hc.
  repeat (apply orb_false_iff in Hc; destruct Hc as [Hc ?]).
  set (body := call_body _) in *.
  assert (Hcfg : buildConfig body = Some (sent_config config)).
  { unfold buildConfig, field_string. subst body. unfold call_body.
    cbn [prop lookup_field String.eqb Ascii.eqb Bool.eqb to_number truthy negb
         c_config c_quotationId c_recipientName c_recipientPhone c_orderId].
    rewrite !text_or_empty.
    cbn [sent_config market serviceType sandbox storeName storePhone storeAddress
         storeLatitude storeLongitude].
    rewrite normalizePhone_is_empty.
    repeat match goal with E : _ = false |- _ => rewrite E; clear E end.
    reflexivity. }
  split; [| split].
  - unfold POST. cbn [String.eqb Ascii.eqb Bool.eqb negb andb].
    rewrite Hjson, Hcfg. reflexivity.
  - unfold order_fields_present, field_string. subst body. unfold call_body.
    cbn [prop lookup_field String.eqb Ascii.eqb Bool.eqb
         c_quotationId c_recipientName c_recipientPhone].
    rewrite !text_or_empty, normalizePhone_is_empty, Hq, Hn, Hp. reflexivity.
  - reflexivity.
Qed.

End Accepted.

Section AtScenario.
#[local] Existing Instance Scenario2.runtime.

(** X19 at the call the job of the order [o1] makes. *)
Lemma job_request_is_accepted_witness :
  POST Scenario.env "order" (JSON_stringify (call_body Scenario2.job_call)) Scenario.w0
  = handleOrder Scenario.env (call_body Scenario2.job_call)
                (sent_config Scenario.store) Scenario.w0 /\
  order_fields_present (call_body Scenario2.job_call) = true /\
  stops_supplied (call_body Scenario2.job_call) = false.
Proof.
  refine (job_request_is_accepted Scenario.env OrdersScenario.env
            "q-recent" "Juan Dela Cruz" "+639171234567" Scenario.store "o1"
            Scenario2.job_call Scenario.w0 _ _ _ _ _ _);
    vm_compute; reflexivity.
Defined.

End AtScenario.

End PipelineFacts.

(* ===================================================================== *)
(** * Further facts: what the order handler posts *)
(* ===================================================================== *)

Module PayloadFacts.
Import Str JS Lalamove LalamoveFacts RouteObservations RouteMore.

Section Content.
Context `{Runtime} (env : Env).

(** [sends_bind], with what is known of the first result. *)
Lemma sends_bind_result {A B} (P : Request -> Prop) (Q : A -> Prop) (n k : nat)
      (m : M A) (f : A -> M B) :
  sends P n m ->
  (forall w a, fst (m w) = Ok a -> Q a) ->
  (forall a, Q a -> sends P k (f a)) ->
  sends P (n + k) (bind m f).
Proof.
  intros Hm HQ Hf w. unfold bind. destruct (Hm w) as (l1 & E1 & F1 & L1).
  pose proof (HQ w) as HQw.
  destruct (m w) as [[a | e] w1]; cbn [snd fst] in E1, HQw.
  - destruct (Hf a (HQw a eq_refl) w1) as (l2 & E2 & F2 & L2). exists (l1 ++ l2)%list.
    rewrite E2, E1, app_assoc. split; [reflexivity |].
    split; [apply Forall_app; split; assumption |].
    rewrite length_app. lia.
  - exists l1. repeat split; [exact E1 | exact F1 | lia].
Qed.

(** The stop identifiers read from a quotation are present, or the order
    handler answers early. *)
Lemma inspect_quotation_stops now d s r q u :
  inspect_quotation now d = inr (s, r, q, u) ->
  truthy s = true /\ truthy r = true.
Proof.
  unfold inspect_quotation.
  destruct (check_expiry _ _); [discriminate |].
  destruct (check_schedule _ _); [discriminate |].
  destruct (extract_stops _) as [s' r'].
  destruct (truthy s') eqn:Hs; [| discriminate].
  destruct (truthy r') eqn:Hr; [| discriminate].
  cbn. intros E. injection E as <- <- _ _. auto.
Qed.

Lemma resolve_stops_stops quotationId config w s r q u :
  fst (resolve_stops env quotationId config w) = Ok (inr (s, r, q, u)) ->
  truthy s = true /\ truthy r = true.
Proof.
  unfold resolve_stops, try_catch, bind.
  destruct (fetch_quotation env quotationId config w) as [[[e st | d] | ex] w1];
    cbn; try discriminate.
  intros E. injection E as E. exact (inspect_quotation_stops _ _ _ _ _ _ E).
Qed.

(** X20. Whatever order the order handler posts, it posts it for the
    quotation of the request, with the store as sender and the recipient
    of the request, under their names and with their phones normalised,
    with proof of delivery enabled, and with both stop identifiers
    present, whether they came with the request or from the quotation. *)
Theorem posted_order_content body config :
  sends (order_content body config) 2 (handleOrder env body config).
Proof.
  unfold handleOrder.
  destruct (_ || _ || _); [apply sends_silent; reflexivity |].
  apply (sends_bind_result
           (order_content body config)
           (fun x : resolved =>
              match x with
              | inl _ => True
              | inr (s, r, _, _) => truthy s = true /\ truthy r = true
              end) 1 1).
  - destruct (_ || _); [| apply sends_silent; reflexivity].
    apply sends_resolve_stops. intros secret apiKey t _ _ Hm. discriminate Hm.
  - intros w [resp | [[[s r] q] u]]; [trivial |].
    destruct (negb (truthy (prop body "senderStopId"))
              || negb (truthy (prop body "recipientStopId"))) eqn:Hsup.
    + apply resolve_stops_stops.
    + cbn. intros E. injection E as <- <- _ _.
      apply orb_false_iff in Hsup as [Hs Hr].
      apply negb_false_iff in Hs, Hr. auto.
  - intros [resp | [[[s r] q] u]] HQ; [apply sends_silent; reflexivity |].
    destruct HQ as [Hs Hr].
    apply sends_submit_order. intros secret apiKey t _ _ _.
    cbn. repeat split; assumption.
Qed.

End Content.

End PayloadFacts.

(* ===================================================================== *)
(** * Facts about the callers *)
(* ===================================================================== *)

Module CallerFacts.
Import Str JS Lalamove OrderManager.

Lemma includes_In (x : string) (l : list string) :
  existsb (String.eqb x) l = true <-> In x l.
Proof.
  rewrite existsb_exists. split.
  - intros (y & Hy & E). apply String.eqb_eq in E. subst y. exact Hy.
  - intros Hx. exists x. split; [exact Hx | apply String.eqb_refl].
Qed.

(** X21. Selecting an order in the order manager toggles it and nothing
    else: afterwards the order is selected exactly if it was not before,
    every other order is selected exactly if it was before, and a
    selection without repetitions stays so. *)
Theorem selection_toggles_one_order (orderId : string) (prev : list string) :
  (In orderId (handleSelectOrder orderId prev) <-> ~ In orderId prev) /\
  (forall k, k <> orderId ->
             (In k (handleSelectOrder orderId prev) <-> In k prev)) /\
  (List.NoDup prev -> List.NoDup (handleSelectOrder orderId prev)).
Proof.
  unfold handleSelectOrder.
  destruct (existsb (String.eqb orderId) prev) eqn:Hin.
  - apply includes_In in Hin. split; [| split].
    + rewrite filter_In. split.
      * intros [_ Hne]. rewrite String.eqb_refl in Hne. discriminate.
      * intros Hn. contradiction.
    + intros k Hk. rewrite filter_In. split; [intros [? _]; assumption |].
      intros Hp. split; [exact Hp |].
      apply negb_true_iff. apply String.eqb_neq. exact Hk.
    + apply List.NoDup_filter.
  - assert (Hn : ~ In orderId prev).
    { intros Hp. apply includes_In in Hp. congruence. }
    split; [| split].
    + rewrite in_app_iff. split; [intros _; exact Hn |].
      intros _. right. left. reflexivity.
    + intros k Hk. rewrite in_app_iff. split; [| auto].
      intros [Hp | [E | []]]; [exact Hp | congruence].
    + intros Hd. apply List.NoDup_app; [exact Hd | repeat constructor; intros [] |].
      intros a Ha [<- | []]. contradiction.
Qed.

(** X22. Select-all in the order manager, for a selection without
    repetitions taken from the orders shown, themselves without repeated
    identifiers: it clears the selection when every order shown is
    selected, and otherwise selects every order shown. *)
Theorem select_all_selects_or_clears (selectedOrders : list string)
        (orders : list Orders.Order) :
  List.NoDup selectedOrders ->
  List.NoDup (map Orders.id orders) ->
  (forall k, In k selectedOrders -> In k (map Orders.id orders)) ->
  (handleSelectAll selectedOrders orders = [] /\
   forall k, In k (map Orders.id orders) -> In k selectedOrders)
  \/
  (handleSelectAll selectedOrders orders = map Orders.id orders /\
   exists k, In k (map Orders.id orders) /\ ~ In k selectedOrders).
Proof.
  intros Hsel Hids Hsub. unfold handleSelectAll.
  destruct (Nat.eqb (length selectedOrders) (length orders)) eqn:Hlen.
  - left. split; [reflexivity |].
    apply Nat.eqb_eq in Hlen.
    apply (NoDup_length_incl Hsel); [| exact Hsub].
    rewrite length_map, Hlen. apply Nat.le_refl.
  - right. split; [reflexivity |].
    apply Nat.eqb_neq in Hlen.
    destruct (forallb (fun k => existsb (String.eqb k) selectedOrders)
                      (map Orders.id orders)) eqn:Hall.
    + exfalso. apply Hlen.
      assert (Hsup : incl (map Orders.id orders) selectedOrders).
      { intros k Hk. apply includes_In.
        exact (proj1 (forallb_forall _ _) Hall k Hk). }
      pose proof (NoDup_incl_length Hsel Hsub) as L1.
      pose proof (NoDup_incl_length Hids Hsup) as L2.
      rewrite length_map in L1, L2. apply Nat.le_antisymm; assumption.
    + assert (Hex : existsb (fun k => negb (existsb (String.eqb k) selectedOrders))
                            (map Orders.id orders) = true).
      { clear - Hall. induction (map Orders.id orders) as [| a r IH]; [discriminate |].
        cbn in *. destruct (existsb (String.eqb a) selectedOrders); cbn in *; auto. }
      apply existsb_exists in Hex as (k & Hk & Hn).
      exists k. split; [exact Hk |].
      intros Hp. apply includes_In in Hp. rewrite Hp in Hn. discriminate.
Qed.

(** X22 at one order shown, and selected. *)
Lemma select_all_selects_or_clears_witness :
  (handleSelectAll ["o1"] [OrdersScenario.order1] = [] /\
   forall k, In k (map Orders.id [OrdersScenario.order1]) -> In k ["o1"]) \/
  (handleSelectAll ["o1"] [OrdersScenario.order1]
   = map Orders.id [OrdersScenario.order1] /\
   exists k, In k (map Orders.id [OrdersScenario.order1]) /\ ~ In k ["o1"]).
Proof.
  apply (select_all_selects_or_clears ["o1"] [OrdersScenario.order1]).
  - repeat constructor. intros [].
  - repeat constructor. intros [].
  - intros k Hk. exact Hk.
Defined.

Section Signing.
Context `{Runtime}.

(** X23. The scenario script and the route sign alike.  For a method
    other than GET, the request [makeRequest] builds and the request the
    upstream client of the route builds for the same path, payload,
    market, host, key, secret and time have the same URL, the same body
    and the same Authorization, Market and Accept headers. *)
Theorem script_signs_like_route (API_KEY SECRET MARKET : string) (IS_SANDBOX : bool)
        (method path : string) (bodyData : value) (t : Z) :
  String.eqb method "GET" = false ->
  let script := Script.makeRequest API_KEY SECRET MARKET IS_SANDBOX method path bodyData t in
  let route := upstream_request path bodyData MARKET IS_SANDBOX method SECRET API_KEY t in
  req_method script = req_method route /\
  req_url script = req_url route /\
  req_body script = req_body route /\
  header "Authorization" (req_headers script) = header "Authorization" (req_headers route) /\
  header "Market" (req_headers script) = header "Market" (req_headers route) /\
  header "Accept" (req_headers script) = header "Accept" (req_headers route).
Proof.
  intros Hm script route. subst script route.
  unfold Script.makeRequest, upstream_request, sign_message, buildUpstreamUrl.
  cbn [req_method req_url req_body req_headers]. rewrite Hm.
  repeat split. destruct IS_SANDBOX; reflexivity.
Qed.

End Signing.

Section SigningScenario.
#[local] Existing Instance Scenario.runtime.

(** X23 at the quotation request of the script. *)
Lemma script_signs_like_route_witness :
  let script := Script.makeRequest "pk_test" "sk_test" "PH" true "POST" "/quotations"
                                   Scenario.quote_created Scenario.T0 in
  let route := upstream_request "/quotations" Scenario.quote_created "PH" true "POST"
                                "sk_test" "pk_test" Scenario.T0 in
  req_method script = req_method route /\
  req_url script = req_url route /\
  req_body script = req_body route /\
  header "Authorization" (req_headers script) = header "Authorization" (req_headers route) /\
  header "Market" (req_headers script) = header "Market" (req_headers route) /\
  header "Accept" (req_headers script) = header "Accept" (req_headers route).
Proof.
  apply (script_signs_like_route "pk_test" "sk_test" "PH" true "POST" "/quotations"
           Scenario.quote_created Scenario.T0).
  reflexivity.
Defined.

End SigningScenario.

End CallerFacts.
